(** * gnim-utils: a shallow embedding of [src/index.ts]

    The helpers of [src/index.ts] glue a reactive-accessor library (gnim)
    to the GObject property/notification model.  Closures are
    defunctionalised: every arrow function of the source is a constructor
    of [callback], [dispose] or [accessor] that records the variables the
    closure captures, and the mutable closure variables ([gobj], [notify])
    live in an explicit store.  Effects are threaded through a [world]. *)

From Stdlib Require Import ZArith Ascii String.
From stdpp Require Import gmap strings list.

Set Warnings "-register-all".

Open Scope string_scope.
Open Scope list_scope.

(** ** JavaScript values *)

(** Numbers are the integers plus NaN: the code only tests numbers for
    truthiness.  An array is its list of items; an object is a reference
    into the store of hosts. *)
Inductive value : Type :=
  | VUndefined
  | VNull
  | VBool (b : bool)
  | VNum (n : Z)
  | VNaN
  | VStr (s : string)
  | VArr (items : list value)
  | VObj (l : nat).

(** [Boolean(v)], ECMAScript ToBoolean. *)
Definition Boolean (v : value) : bool :=
  match v with
  | VUndefined | VNull | VNaN => false
  | VBool b => b
  | VNum n => negb (n =? 0)%Z
  | VStr s => match s with EmptyString => false | String _ _ => true end
  | VArr _ | VObj _ => true
  end.

(** [Array.isArray(v)] *)
Definition isArray (v : value) : bool :=
  match v with VArr _ => true | _ => false end.

(** [v.length] of an array (0 on anything else, where the code never asks). *)
Definition arr_length (v : value) : nat :=
  match v with VArr items => length items | _ => 0 end.

(** [v == null]: what optional chaining [?.] short-circuits on. *)
Definition nullish (v : value) : bool :=
  match v with VUndefined | VNull => true | _ => false end.

(** [Object.is(a, b)] on the values of the model; two arrays are never the
    same object here (each array literal is a fresh object). *)
Definition same_value (a b : value) : bool :=
  match a, b with
  | VUndefined, VUndefined | VNull, VNull | VNaN, VNaN => true
  | VBool x, VBool y => Bool.eqb x y
  | VNum x, VNum y => (x =? y)%Z
  | VStr x, VStr y => String.eqb x y
  | VObj x, VObj y => Nat.eqb x y
  | _, _ => false
  end.

(** ** camelCase to kebab-case: [s.replace(/[A-Z]/g, s => `-${s.toLowerCase()}`)] *)

Definition is_upper (c : ascii) : bool :=
  let n := nat_of_ascii c in (65 <=? n)%nat && (n <=? 90)%nat.

Definition to_lower (c : ascii) : ascii :=
  if is_upper c then ascii_of_nat (nat_of_ascii c + 32) else c.

Fixpoint kebab (s : string) : string :=
  match s with
  | EmptyString => EmptyString
  | String c rest =>
      if is_upper c
      then String "-"%char (String (to_lower c) (kebab rest))
      else String c (kebab rest)
  end.

(** the event name [`notify::${kebab(prop)}`] *)
Definition notify_signal (prop : string) : string := "notify::" +:+ kebab prop.

(** ** Results of effectful code *)

Inductive error : Type :=
  | TypeError        (* member access on undefined/null, call of a non-function *)
  | DisposedError    (* the toolkit refuses an operation on a disposed object *)
  | NoScopeError.    (* getScope() outside of a scope *)

Inductive outcome (A : Type) : Type :=
  | Ok (a : A)
  | Throw (e : error)
  | OutOfFuel.
Arguments Ok {A} a.
Arguments Throw {A} e.
Arguments OutOfFuel {A}.

Definition bind {A B} (m : outcome A) (k : A -> outcome B) : outcome B :=
  match m with
  | Ok a => k a
  | Throw e => Throw e
  | OutOfFuel => OutOfFuel
  end.

Notation "'let!' x ':=' m 'in' k" := (bind m (fun x => k))
  (at level 10, x name, m at level 100, k at level 200).
Notation "'let!' ' pat ':=' m 'in' k" :=
  (bind m (fun x => match x with pat => k end))
  (at level 10, pat pattern, m at level 100, k at level 200).

(** [try { m } catch(e) {}] around a computation that changes nothing
    before it throws. *)
Definition try_ignore {W} (m : outcome W) (w : W) : outcome W :=
  match m with
  | Ok w' => Ok w'
  | Throw _ => Ok w
  | OutOfFuel => OutOfFuel
  end.

(** ** Closures of the source, defunctionalised *)

(** Release functions ([() => void]) handed back by a subscribe. *)
Inductive dispose : Type :=
  | DNoop
      (* a subscribe that has nothing to release *)
  | DCell (c : nat) (sid : positive)
      (* the unsubscribe of a reactive state cell (external) *)
  | DSecureBinding (gobj : value) (id : positive)
      (* index.ts 64-68: try { gobj.disconnect(id) } catch(e) {} *)
  | DNested (i : positive) (id : option positive) (baseSub : dispose)
      (* index.ts 125-128 and 186-189:
         id && gobj?.disconnect(id); baseSub() *)
  | DScopedConnection (gobj : value) (id : positive).
      (* index.ts 299: () => gobj.disconnect(id) *)

(** Accessors: a getter and a subscribe function.  [i] names the closure
    environment holding the [gobj] and [notify] variables of one call of
    a nested binding helper. *)
Inductive accessor : Type :=
  | AState (c : nat)
      (* a reactive state cell of the accessor library (external) *)
  | AAs (a : accessor) (f : value -> value)
      (* a.as(f) *)
  | ASecureBinding (gobj : value) (prop : string) (defaultValue : value)
      (* index.ts 59-70 *)
  | AAccessorBinding (i : positive) (prop : string) (baseSub : dispose)
      (* index.ts 115-130 *)
  | ASecureAccessorBinding (i : positive) (prop : string)
      (defaultValue : value) (baseSub : dispose).
      (* index.ts 176-191 *)

(** Callbacks ([() => void]).  [CbLog] and [CbRead] stand for the
    application's own subscribers: the first records that it ran, the
    second reads an accessor when it runs and records what it read. *)
Inductive callback : Type :=
  | CbLog (k : nat)
  | CbRead (k : nat) (a : accessor)
  | CbBase (i : positive) (accessorObject : accessor)
      (* index.ts 102-113 and 163-174 *)
  | CbNotify (i : positive)
      (* index.ts 122 and 183: () => notify(), [notify] the closure variable *)
  | CbSecureNotify (notify : callback)
      (* index.ts 63: () => notify(), [notify] the parameter *)
  | CbConstruct (klass : nat) (k : string) (v : accessor) (isGObject : bool)
      (* index.ts 267-271 *)
  | CbSignal (callback : callback).
      (* index.ts 295-297: (_, ...args) => callback(...args) *)

(** What an observer of the program sees. *)
Inductive event : Type :=
  | EvCall (k : nat)                 (* subscriber k was notified *)
  | EvRead (k : nat) (v : value)     (* subscriber k was notified and read v *)
  | EvNotify (l : nat) (name : string).  (* host l: notify(name) was called *)

(** ** The store *)

(** Modelled from the spec: the notifying property host (a GObject
    instance, external to the repository): own fields, fields found on
    the prototype chain, connected signal handlers with their ids, whether
    the object is still alive, and whether it is an instance of
    GObject.Object. *)
Record host : Type := Host {
  h_own : gmap string value;
  h_proto : gmap string value;
  h_handlers : list (positive * string * callback);
  h_alive : bool;
  h_gobject : bool
}.

(** Modelled from the spec: the reactive accessor capability, as a state
    cell holding a current value and its subscribers (external to the
    repository). *)
Record cell : Type := Cell {
  c_value : value;
  c_subs : list (positive * callback)
}.

(** The variables [gobj] and [notify] of one call of createAccessorBinding
    or createSecureAccessorBinding (index.ts 99-100, 160-161); [notify] is
    declared without a value. *)
Record closure_env : Type := Env {
  e_gobj : value;
  e_notify : option callback
}.

Record world : Type := World {
  hosts : gmap nat host;
  cells : gmap nat cell;
  envs : gmap positive closure_env;
  next_id : positive;             (* supply of handler and subscription ids *)
  scope : option (list dispose);  (* cleanups of the ambient scope, if any *)
  trace : list event
}.

Definition set_hosts (f : gmap nat host -> gmap nat host) (w : world) : world :=
  World (f (hosts w)) (cells w) (envs w) (next_id w) (scope w) (trace w).
Definition set_cells (f : gmap nat cell -> gmap nat cell) (w : world) : world :=
  World (hosts w) (f (cells w)) (envs w) (next_id w) (scope w) (trace w).
Definition set_envs (f : gmap positive closure_env -> gmap positive closure_env)
    (w : world) : world :=
  World (hosts w) (cells w) (f (envs w)) (next_id w) (scope w) (trace w).
Definition bump_id (w : world) : world :=
  World (hosts w) (cells w) (envs w) (Pos.succ (next_id w)) (scope w) (trace w).
Definition set_scope (s : option (list dispose)) (w : world) : world :=
  World (hosts w) (cells w) (envs w) (next_id w) s (trace w).
Definition log (e : event) (w : world) : world :=
  World (hosts w) (cells w) (envs w) (next_id w) (scope w) (trace w ++ [e]).

(** *** Hosts *)

(** [o[prop]] on an object: own field first, then the prototype chain. *)
Definition host_get (h : host) (prop : string) : value :=
  match h_own h !! prop with
  | Some v => v
  | None => default VUndefined (h_proto h !! prop)
  end.

(** [gobj[prop]]: a TypeError on undefined and null.  Primitives and
    arrays are outside the declared type of [gobj]; their fields read as
    undefined here. *)
Definition read_prop (gobj : value) (prop : string) (w : world) : outcome value :=
  match gobj with
  | VUndefined | VNull => Throw TypeError
  | VObj l =>
      match hosts w !! l with
      | Some h => Ok (host_get h prop)
      | None => Throw TypeError
      end
  | _ => Ok VUndefined
  end.

(** [Object.hasOwn(gobj, prop)] for a truthy [gobj]. *)
Definition hasOwn (gobj : value) (prop : string) (w : world) : bool :=
  match gobj with
  | VObj l =>
      match hosts w !! l with
      | Some h => bool_decide (is_Some (h_own h !! prop))
      | None => false
      end
  | _ => false
  end.

(** [klass[k] = v]: a plain field write. *)
Definition assign (klass : nat) (k : string) (v : value) (w : world) : outcome world :=
  match hosts w !! klass with
  | Some h =>
      Ok (set_hosts
            <[klass := Host (<[k := v]> (h_own h)) (h_proto h) (h_handlers h)
                            (h_alive h) (h_gobject h)]> w)
  | None => Throw TypeError
  end.

(** [gobj.connect(signal, cb)] *)
Definition connect (gobj : value) (signal : string) (cb : callback) (w : world)
    : outcome (positive * world) :=
  match gobj with
  | VObj l =>
      match hosts w !! l with
      | Some h =>
          if h_alive h then
            let id := next_id w in
            Ok (id, bump_id (set_hosts
                  <[l := Host (h_own h) (h_proto h)
                              (h_handlers h ++ [(id, signal, cb)])
                              (h_alive h) (h_gobject h)]> w))
          else Throw DisposedError
      | None => Throw TypeError
      end
  | _ => Throw TypeError
  end.

(** [gobj.disconnect(id)]: raises on a disposed object; an id the object
    does not know is left alone. *)
Definition disconnect (gobj : value) (id : positive) (w : world) : outcome world :=
  match gobj with
  | VObj l =>
      match hosts w !! l with
      | Some h =>
          if h_alive h then
            Ok (set_hosts
                  <[l := Host (h_own h) (h_proto h)
                              (filter (fun e => e.1.1 ≠ id) (h_handlers h))
                              (h_alive h) (h_gobject h)]> w)
          else Throw DisposedError
      | None => Throw TypeError
      end
  | _ => Throw TypeError
  end.

(** the handlers a [notify(name)] reaches: those connected to
    [notify::name] and those connected to plain [notify] *)
Definition listens (name : string) (e : positive * string * callback) : bool :=
  String.eqb e.1.2 ("notify::" +:+ name) || String.eqb e.1.2 "notify".

Definition listeners (name : string) (h : host) : list callback :=
  map snd (List.filter (listens name) (h_handlers h)).

(** *** State cells *)

Definition cell_subscribe (c : nat) (cb : callback) (w : world)
    : outcome (dispose * world) :=
  match cells w !! c with
  | Some cl =>
      let sid := next_id w in
      Ok (DCell c sid,
          bump_id (set_cells <[c := Cell (c_value cl) (c_subs cl ++ [(sid, cb)])]> w))
  | None => Throw TypeError
  end.

Definition cell_unsubscribe (c : nat) (sid : positive) (w : world) : world :=
  match cells w !! c with
  | Some cl =>
      set_cells <[c := Cell (c_value cl) (filter (fun e => e.1 ≠ sid) (c_subs cl))]> w
  | None => w
  end.

(** *** Closure environments *)

Definition env_gobj (i : positive) (w : world) : outcome value :=
  match envs w !! i with
  | Some e => Ok (e_gobj e)
  | None => Throw TypeError
  end.

Definition env_set_gobj (i : positive) (v : value) (w : world) : outcome world :=
  match envs w !! i with
  | Some e => Ok (set_envs <[i := Env v (e_notify e)]> w)
  | None => Throw TypeError
  end.

Definition env_set_notify (i : positive) (cb : callback) (w : world) : outcome world :=
  match envs w !! i with
  | Some e => Ok (set_envs <[i := Env (e_gobj e) (Some cb)]> w)
  | None => Throw TypeError
  end.

(** ** Accessors: [get] and [subscribe] *)

(** [a.get()] *)
Fixpoint acc_get (a : accessor) (w : world) : outcome value :=
  match a with
  | AState c =>
      match cells w !! c with
      | Some cl => Ok (c_value cl)
      | None => Throw TypeError
      end
  | AAs a' f =>
      let! v := acc_get a' w in Ok (f v)
  | ASecureBinding gobj prop defaultValue =>
      (* index.ts 55-57 *)
      if Boolean gobj && hasOwn gobj prop w
      then read_prop gobj prop w
      else Ok defaultValue
  | AAccessorBinding i prop _ =>
      (* index.ts 116: () => gobj![prop] *)
      let! gobj := env_gobj i w in
      read_prop gobj prop w
  | ASecureAccessorBinding i prop defaultValue _ =>
      (* index.ts 177: () => gobj ? gobj[prop] : defaultValue *)
      let! gobj := env_gobj i w in
      if Boolean gobj then read_prop gobj prop w else Ok defaultValue
  end.

(** the subscribe function of the two nested bindings, index.ts 117-129
    and 178-190 *)
Definition nested_subscribe (i : positive) (prop : string) (baseSub : dispose)
    (notifyFun : callback) (w : world) : outcome (dispose * world) :=
  let! w1 := env_set_notify i notifyFun w in
  let! gobj := env_gobj i w1 in
  let! '(id, w2) :=
    (if nullish gobj then Ok (None, w1)
     else let! '(id, w') := connect gobj (notify_signal prop) (CbNotify i) w1 in
          Ok (Some id, w')) in
  Ok (DNested i id baseSub, w2).

(** [a.subscribe(cb)] *)
Fixpoint acc_subscribe (a : accessor) (cb : callback) (w : world)
    : outcome (dispose * world) :=
  match a with
  | AState c => cell_subscribe c cb w
  | AAs a' _ => acc_subscribe a' cb w
  | ASecureBinding gobj prop _ =>
      (* index.ts 61-69 *)
      let gobjectProp := kebab prop in
      let! '(id, w1) := connect gobj ("notify::" +:+ gobjectProp) (CbSecureNotify cb) w in
      Ok (DSecureBinding gobj id, w1)
  | AAccessorBinding i prop baseSub => nested_subscribe i prop baseSub cb w
  | ASecureAccessorBinding i prop _ baseSub => nested_subscribe i prop baseSub cb w
  end.

(** running a release function *)
Fixpoint run_dispose (d : dispose) (w : world) : outcome world :=
  match d with
  | DNoop => Ok w
  | DCell c sid => Ok (cell_unsubscribe c sid w)
  | DSecureBinding gobj id => try_ignore (disconnect gobj id w) w
  | DNested i id baseSub =>
      let! gobj := env_gobj i w in
      let! w1 :=
        match id with
        | Some id' => if nullish gobj then Ok w else disconnect gobj id' w
        | None => Ok w
        end in
      run_dispose baseSub w1
  | DScopedConnection gobj id => disconnect gobj id w
  end.

(** ** Running callbacks *)

Fixpoint run_all (run : callback -> world -> outcome world)
    (cbs : list callback) (w : world) : outcome world :=
  match cbs with
  | [] => Ok w
  | cb :: rest => let! w1 := run cb w in run_all run rest w1
  end.

(** the toolkit emits [notify::name] on host [l] *)
Definition emit (run : callback -> world -> outcome world) (l : nat)
    (name : string) (w : world) : outcome world :=
  match hosts w !! l with
  | Some h =>
      if h_alive h then run_all run (listeners name h) w
      else Throw DisposedError
  | None => Throw TypeError
  end.

(** [klass.notify(name)] *)
Definition host_notify (run : callback -> world -> outcome world) (l : nat)
    (name : string) (w : world) : outcome world :=
  emit run l name (log (EvNotify l name) w).

(** [notify()] on the closure variable of environment [i]; calling it
    before a subscriber has stored a function there is a TypeError. *)
Definition invoke_notify (run : callback -> world -> outcome world)
    (i : positive) (w : world) : outcome world :=
  match envs w !! i with
  | Some e =>
      match e_notify e with
      | Some cb => run cb w
      | None => Throw TypeError
      end
  | None => Throw TypeError
  end.

Fixpoint call (fuel : nat) (cb : callback) (w : world) {struct fuel} : outcome world :=
  match fuel with
  | O => OutOfFuel
  | S fuel' =>
      match cb with
      | CbLog k => Ok (log (EvCall k) w)
      | CbRead k a => let! v := acc_get a w in Ok (log (EvRead k v) w)
      | CbBase i accessorObject =>
          let! newBase := acc_get accessorObject w in
          if negb (Boolean newBase) then
            let! w1 := env_set_gobj i VUndefined w in
            invoke_notify (call fuel') i w1
          else
            let! w1 := env_set_gobj i newBase w in
            invoke_notify (call fuel') i w1
      | CbNotify i => invoke_notify (call fuel') i w
      | CbSecureNotify notify => call fuel' notify w
      | CbConstruct klass k v isGObject =>
          let! x := acc_get v w in
          let! w1 := assign klass k x w in
          if isGObject then host_notify (call fuel') klass (kebab k) w1
          else Ok w1
      | CbSignal callback => call fuel' callback w
      end
  end.

(** Modelled from the spec: the setter of a state cell.  A write of the
    value the cell already holds is not a change; a change is committed
    and then every subscriber (as they stand at that moment) is called. *)
Definition cell_set (fuel : nat) (c : nat) (v : value) (w : world) : outcome world :=
  match cells w !! c with
  | Some cl =>
      if same_value (c_value cl) v then Ok w
      else run_all (call fuel) (map snd (c_subs cl))
             (set_cells <[c := Cell v (c_subs cl)]> w)
  | None => Throw TypeError
  end.

(** Modelled from the spec: the toolkit changes field [prop] of host [l]
    and emits the rename-mapped change event. *)
Definition host_change (fuel : nat) (l : nat) (prop : string) (v : value)
    (w : world) : outcome world :=
  let! w1 := assign l prop v w in
  emit (call fuel) l (kebab prop) w1.

(** Modelled from the spec: the toolkit disposes host [l]; its handlers
    are gone and it refuses signal operations from then on. *)
Definition dispose_host (l : nat) (w : world) : world :=
  match hosts w !! l with
  | Some h =>
      set_hosts <[l := Host (h_own h) (h_proto h) [] false (h_gobject h)]> w
  | None => w
  end.

(** ** The functions of [src/index.ts] *)

(** plain value or accessor: the [instanceof Accessor] test of the source *)
Inductive input : Type :=
  | Plain (v : value)
  | Reactive (a : accessor).

(** Modelled from the spec: the ambient scope service, [getScope()] and
    [scope.onCleanup(fn)]. *)
Definition getScope (w : world) : outcome (list dispose) :=
  match scope w with
  | Some cleanups => Ok cleanups
  | None => Throw NoScopeError
  end.

Definition onCleanup (d : dispose) (w : world) : outcome world :=
  let! cleanups := getScope w in
  Ok (set_scope (Some (cleanups ++ [d])) w).

(** index.ts 10-18 *)
Definition createSubscription (a : accessor) (cb : callback) (w : world)
    : outcome world :=
  let! _ := getScope w in
  let! '(sub, w1) := acc_subscribe a cb w in
  onCleanup sub w1.

(** index.ts 25-33 *)
Definition toBoolean (variable : input) : input :=
  match variable with
  | Reactive a =>
      Reactive (AAs a (fun v =>
        VBool (if isArray v then (0 <? arr_length v)%nat else Boolean v)))
  | Plain v =>
      Plain (VBool (if isArray v then (0 <? arr_length v)%nat else Boolean v))
  end.

(** index.ts 46-71 *)
Definition createSecureBinding (gobj : value) (prop : string)
    (defaultValue : value) : accessor :=
  ASecureBinding gobj prop defaultValue.

(** a fresh closure environment for the variables of one call *)
Definition new_env (gobj : value) (w : world) : positive * world :=
  let i := next_id w in
  (i, bump_id (set_envs <[i := Env gobj None]> w)).

(** index.ts 92-133 *)
Definition createAccessorBinding (accessorObject : accessor) (prop : string)
    (w : world) : outcome (accessor * world) :=
  let! gobj := acc_get accessorObject w in
  let '(i, w1) := new_env gobj w in
  let! '(baseSub, w2) := acc_subscribe accessorObject (CbBase i accessorObject) w1 in
  Ok (AAccessorBinding i prop baseSub, w2).

(** index.ts 150-194 *)
Definition createSecureAccessorBinding (baseObject : accessor) (prop : string)
    (defaultValue : value) (w : world) : outcome (accessor * world) :=
  let! gobj := acc_get baseObject w in
  let '(i, w1) := new_env gobj w in
  let! '(baseSub, w2) := acc_subscribe baseObject (CbBase i baseObject) w1 in
  Ok (ASecureAccessorBinding i prop defaultValue baseSub, w2).

(** index.ts 198-205 *)
Definition transform (v : input) (fn : value -> value) : input :=
  match v with
  | Reactive a => Reactive (AAs a fn)
  | Plain x => Plain (fn x)
  end.

(** index.ts 257-282; [props] lists the entries in the order of
    [Object.keys(props)]. *)
Fixpoint construct_each (klass : nat) (isGObject : bool)
    (props : list (string * input)) (subs : list dispose) (w : world)
    : outcome (list dispose * world) :=
  match props with
  | [] => Ok (subs, w)
  | (k, v) :: rest =>
      match v with
      | Plain VUndefined => construct_each klass isGObject rest subs w
      | Reactive a =>
          let! '(sub, w1) := acc_subscribe a (CbConstruct klass k a isGObject) w in
          let! x := acc_get a w1 in
          let! w2 := assign klass k x w1 in
          construct_each klass isGObject rest (subs ++ [sub]) w2
      | Plain x =>
          let! w1 := assign klass k x w in
          construct_each klass isGObject rest subs w1
      end
  end.

Definition instanceof_GObject (klass : nat) (w : world) : bool :=
  match hosts w !! klass with
  | Some h => h_gobject h
  | None => false
  end.

Definition construct (klass : nat) (props : list (string * input)) (w : world)
    : outcome (list dispose * world) :=
  let isGObject := instanceof_GObject klass w in
  construct_each klass isGObject props [] w.

(** index.ts 286-300 *)
Definition createScopedConnection (gobj : value) (signal : string)
    (cb : callback) (w : world) : outcome world :=
  let! _ := getScope w in
  let! '(id, w1) := connect gobj signal (CbSignal cb) w in
  onCleanup (DScopedConnection gobj id) w1.

(** *** transformWidget, index.ts 211-229 *)

Section Widgets.
(** Modelled from the spec: the rendering side of the accessor library.
    [element] is what a renderer returns, [index] the index accessor
    that the keyed list mechanism passes along. *)
Variable element : Type.
Variable index : Type.

Inductive JSXNode : Type :=
  | For (each : accessor) (children : value -> index -> element)
      (* keyed list reconciliation *)
  | With (v : accessor) (children : value -> option index -> element)
      (* single-slot reconciliation *)
  | Elements (els : list element)
  | Element (e : element).

Definition transformWidget (v : input)
    (fn : value -> option index -> element) (w : world) : outcome JSXNode :=
  match v with
  | Reactive a =>
      let! cur := acc_get a w in
      if isArray cur then
        Ok (For a (fun cval i => fn cval (Some i)))
      else
        Ok (With a fn)
  | Plain (VArr items) => Ok (Elements (map (fun val => fn val None) items))
  | Plain x => Ok (Element (fn x None))
  end.
End Widgets.

Arguments For {element index}.
Arguments With {element index}.
Arguments Elements {element index}.
Arguments Element {element index}.
Arguments transformWidget {element index}.


(** ** Observations used in the statements *)

(** the handlers connected to host [l] *)
Definition handlers_of (l : nat) (w : world) : list (positive * string * callback) :=
  match hosts w !! l with
  | Some h => h_handlers h
  | None => []
  end.

(** the subscribers of state cell [c] *)
Definition subs_of (c : nat) (w : world) : list (positive * callback) :=
  match cells w !! c with
  | Some cl => c_subs cl
  | None => []
  end.

(** own field [k] of host [l], if any *)
Definition own_field (l : nat) (k : string) (w : world) : option value :=
  h ← hosts w !! l; h_own h !! k.

(** the inner property-change listeners that the nested binding with
    environment [i] has on host [l] *)
Definition inner_listeners (i : positive) (l : nat) (w : world)
    : list (positive * string * callback) :=
  List.filter
    (fun e => match e.2 with CbNotify j => Pos.eqb i j | _ => false end)
    (handlers_of l w).

(** the listeners that the nested binding with environment [i] has on the
    outer state cell [c] *)
Definition outer_listeners (i : positive) (c : nat) (w : world)
    : list (positive * callback) :=
  List.filter
    (fun e => match e.2 with CbBase j _ => Pos.eqb i j | _ => false end)
    (subs_of c w).


(** the entries construct skips, and the keys of the others *)
Definition is_skipped (e : string * input) : bool :=
  match e.2 with
  | Plain VUndefined => true
  | _ => false
  end.

Definition assigned_keys (props : list (string * input)) : list string :=
  map fst (List.filter (fun e => negb (is_skipped e)) props).


(** either nested binding helper: the plain one, or the defaulted one when
    a default value is given *)
Definition nested_binding (defaultValue : option value) (a : accessor)
    (prop : string) (w : world) : outcome (accessor * world) :=
  match defaultValue with
  | None => createAccessorBinding a prop w
  | Some d => createSecureAccessorBinding a prop d w
  end.


(** ** A concrete world for the examples

    Two live GObject hosts: host 1 has [x = 1] and [p = 5], host 2 has
    [x = 2]; state cell 0 resolves to host 1; state cell 1 holds the
    number 2 and state cell 2 is empty. *)

Definition hostA : host :=
  Host {[ "x" := VNum 1; "p" := VNum 5 ]} ∅ [] true true.

Definition hostB : host :=
  Host {[ "x" := VNum 2 ]} ∅ [] true true.

Definition world0 : world :=
  World {[ 1%nat := hostA; 2%nat := hostB ]}
        {[ 0%nat := Cell (VObj 1) []; 1%nat := Cell (VNum 2) [];
           2%nat := Cell VUndefined [] ]}
        ∅ 1%positive (Some []) [].

(** A nested binding to ["x"] over state cell 0 is created (the plain
    helper, or the defaulted one when a default is given), subscriber 7
    subscribes, and the cell then changes to [v]. *)
Definition nested_then_change (defaultValue : option value) (v : value)
    : outcome (accessor * dispose * world) :=
  let! '(acc, w1) := nested_binding defaultValue (AState 0) "x" world0 in
  let! '(dsp, w2) := acc_subscribe acc (CbLog 7) w1 in
  let! w3 := cell_set 2 0 v w2 in
  Ok (acc, dsp, w3).

(** A nested binding to ["x"] over state cell 0 is created, subscriber 7
    subscribes, the resolved host 1 is disposed, and the subscriber
    unsubscribes. *)
Definition nested_then_dispose_then_release : outcome world :=
  let! '(acc, w1) := createAccessorBinding (AState 0) "x" world0 in
  let! '(dsp, w2) := acc_subscribe acc (CbLog 7) w1 in
  run_dispose dsp (dispose_host 1 w2).

(** props [{a: 1, b: <state cell 1>, c: undefined}] *)
Definition example_props : list (string * input) :=
  [("a", Plain (VNum 1)); ("b", Reactive (AState 1)); ("c", Plain VUndefined)].

(** construct on host 1 with [example_props], then state cell 1 changes
    to 3 *)
Definition construct_then_update : outcome (list dispose * world) :=
  let! '(subs, w1) := construct 1 example_props world0 in
  let! w2 := cell_set 3 1 (VNum 3) w1 in
  Ok (subs, w2).

(** A nested binding to ["x"] over state cell 0 is created and subscriber
    7 subscribes, reading the binding whenever it is notified; then the
    toolkit changes ["x"] of host 1, the outer cell moves to host 2, and
    the toolkit changes ["x"] of host 2. *)
Definition nested_then_host_changes : outcome (accessor * world) :=
  let! '(acc, w1) := createAccessorBinding (AState 0) "x" world0 in
  let! '(dsp, w2) := acc_subscribe acc (CbRead 7 acc) w1 in
  let! w3 := host_change 2 1 "x" (VNum 10) w2 in
  let! w4 := cell_set 2 0 (VObj 2) w3 in
  let! w5 := host_change 2 2 "x" (VNum 20) w4 in
  Ok (acc, w5).

(** ** Tactics *)

Ltac map_simpl :=
  repeat (simpl
          || rewrite lookup_insert_eq
          || (rewrite lookup_insert_ne by done)).

(** ** The remaining helpers of [src/index.ts] and their environment *)

(** [Array.prototype.filter] with the callback of index.ts 238-239: the
    callback sees the item, its index and the whole array, and an item is
    kept when the result is truthy. *)
Fixpoint filter_from (fn : value -> nat -> list value -> value)
    (arr : list value) (i : nat) (rest : list value) : list value :=
  match rest with
  | [] => []
  | it :: rest' =>
      if Boolean (fn it i arr)
      then it :: filter_from fn arr (S i) rest'
      else filter_from fn arr (S i) rest'
  end.

Definition array_filter (fn : value -> nat -> list value -> value)
    (items : list value) : list value :=
  filter_from fn items 0 items.

(** an accessor given by its two functions, [new Accessor(get, subscribe)] *)
Record derived : Type := Derived {
  d_get : world -> outcome value;
  d_subscribe : callback -> world -> outcome (dispose * world)
}.

Inductive filtered : Type :=
  | FilteredArray (items : list value)
  | FilteredAccessor (a : derived).

Module Arrays.
(** index.ts 233-240.  Calling an accessor with a function derives an
    accessor as [as] does; [x.filter] on anything but an array is a
    TypeError, at the call for a plain input and at each read for an
    accessor. *)
Definition filter (v : input) (fn : value -> nat -> list value -> value)
    : outcome filtered :=
  match v with
  | Reactive a =>
      Ok (FilteredAccessor
            (Derived
               (fun w =>
                  let! x := acc_get a w in
                  match x with
                  | VArr items => Ok (VArr (array_filter fn items))
                  | _ => Throw TypeError
                  end)
               (acc_subscribe a)))
  | Plain (VArr items) => Ok (FilteredArray (array_filter fn items))
  | Plain _ => Throw TypeError
  end.
End Arrays.

(** Modelled from the spec: teardown of the ambient scope.  Every
    registered cleanup runs once, in registration order, and the scope is
    left without cleanups. *)
Fixpoint run_cleanups (ds : list dispose) (w : world) : outcome world :=
  match ds with
  | [] => Ok w
  | d :: rest => let! w1 := run_dispose d w in run_cleanups rest w1
  end.

Definition scope_dispose (w : world) : outcome world :=
  let! cleanups := getScope w in
  run_cleanups cleanups (set_scope (Some []) w).

(** Modelled from the spec: the toolkit emits [signal] on host [l]; the
    handlers connected to that signal run in the order of connection. *)
Definition emit_signal (run : callback -> world -> outcome world) (l : nat)
    (signal : string) (w : world) : outcome world :=
  match hosts w !! l with
  | Some h =>
      if h_alive h then
        run_all run
          (map snd (List.filter (fun e => String.eqb e.1.2 signal) (h_handlers h))) w
      else Throw DisposedError
  | None => Throw TypeError
  end.

(** reading a plain-or-reactive value *)
Definition read (v : input) (w : world) : outcome value :=
  match v with
  | Plain x => Ok x
  | Reactive a => acc_get a w
  end.

(** no handler of the host carries the id the next connect hands out *)
Definition fresh_handler_id (h : host) (w : world) : Prop :=
  Forall (fun e => e.1.1 <> next_id w) (h_handlers h).

(** the characters [A-Z] do not occur in [s] *)
Fixpoint no_upper (s : string) : bool :=
  match s with
  | EmptyString => true
  | String c rest => negb (is_upper c) && no_upper rest
  end.

(** a world with a camelCase field and a state cell holding an array *)
Definition world1 : world :=
  World {[ 1%nat := Host {[ "iconName" := VStr "a" ]} ∅ [] true true ]}
        {[ 0%nat := Cell (VArr [VNum 1; VNum 2; VNum 3; VNum 4]) [] ]}
        ∅ 1%positive (Some []) [].

(** "is even" on the numbers of the model *)
Definition is_even (v : value) (i : nat) (arr : list value) : value :=
  match v with
  | VNum n => VBool (Z.even n)
  | _ => VBool false
  end.




(** A defaulted nested binding to ["x"] with default -1 over state cell 0
    is created; subscriber 1 subscribes and unsubscribes; subscriber 7
    subscribes; the cell then changes to undefined. *)
Definition resubscribed_then_host_lost : outcome (accessor * world) :=
  let! '(acc, w1) := createSecureAccessorBinding (AState 0) "x" (VNum (-1)) world0 in
  let! '(d1, w2) := acc_subscribe acc (CbLog 1) w1 in
  let! w3 := run_dispose d1 w2 in
  let! '(d2, w4) := acc_subscribe acc (CbLog 7) w3 in
  let! w5 := cell_set 2 0 VUndefined w4 in
  Ok (acc, w5).
(** * Properties *)

(** ** Basic facts about the store *)

Lemma bind_Ok {A B} (m : outcome A) (k : A -> outcome B) (b : B) :
  bind m k = Ok b -> exists a, m = Ok a /\ k a = Ok b.
Proof. destruct m; simpl; intros H; try discriminate. eauto. Qed.


Lemma host_get_inherited (h : host) (prop : string) :
  h_own h !! prop = None -> host_get h prop = default VUndefined (h_proto h !! prop).
Proof. unfold host_get. intros ->. reflexivity. Qed.

Lemma Boolean_nullish (v : value) : nullish v = true -> Boolean v = false.
Proof. destruct v; simpl; congruence. Qed.

Example kebab_camel : kebab "exampleProperty" = "example-property".
Proof. reflexivity. Qed.

Example kebab_lower : kebab "visible" = "visible".
Proof. reflexivity. Qed.

(** ** toBoolean *)

Lemma toBoolean_plain (v : value) :
  toBoolean (Plain v)
  = Plain (VBool (match v with
                  | VArr items => negb (bool_decide (items = []))
                  | _ => Boolean v
                  end)).
Proof. destruct v; try reflexivity. destruct items; reflexivity. Qed.

(** C8: toBoolean sends the empty string, 0, false, undefined and null to
    false, the empty array to false, every non-empty array to true, any
    other plain value to its truthiness ("x", 1 and true to true), and an
    accessor to the derived accessor that applies the same rule to the
    upstream value and notifies when the upstream does. *)
Theorem C8_toBoolean :
  toBoolean (Plain (VStr "")) = Plain (VBool false) /\
  toBoolean (Plain (VNum 0)) = Plain (VBool false) /\
  toBoolean (Plain (VBool false)) = Plain (VBool false) /\
  toBoolean (Plain VUndefined) = Plain (VBool false) /\
  toBoolean (Plain VNull) = Plain (VBool false) /\
  toBoolean (Plain (VArr [])) = Plain (VBool false) /\
  (forall x xs, toBoolean (Plain (VArr (x :: xs))) = Plain (VBool true)) /\
  (forall v, isArray v = false -> toBoolean (Plain v) = Plain (VBool (Boolean v))) /\
  toBoolean (Plain (VStr "x")) = Plain (VBool true) /\
  toBoolean (Plain (VNum 1)) = Plain (VBool true) /\
  toBoolean (Plain (VBool true)) = Plain (VBool true) /\
  (forall a, exists a',
      toBoolean (Reactive a) = Reactive a' /\
      (forall w v, acc_get a w = Ok v ->
         exists b, acc_get a' w = Ok (VBool b) /\
                   toBoolean (Plain v) = Plain (VBool b)) /\
      (forall w e, acc_get a w = Throw e -> acc_get a' w = Throw e) /\
      (forall cb w, acc_subscribe a' cb w = acc_subscribe a cb w)).
Proof.
  repeat split; try reflexivity.
  - intros v Hv. destruct v; try reflexivity. discriminate.
  - intros a. eexists. split; [reflexivity|]. repeat split.
    + intros w v Hget. simpl. rewrite Hget. simpl. eauto.
    + intros w e Hget. simpl. rewrite Hget. reflexivity.
Qed.

Lemma C8_toBoolean_witness :
  isArray (VStr "abc") = false /\
  toBoolean (Plain (VStr "abc")) = Plain (VBool (Boolean (VStr "abc"))).
Proof.
  split; [reflexivity|].
  apply (proj1 (proj2 (proj2 (proj2 (proj2 (proj2 (proj2 (proj2 C8_toBoolean)))))))).
  reflexivity.
Defined.

(** ** transformWidget *)

(** C9: transformWidget renders an accessor whose current value is an
    array through For (each item with its index accessor goes to the
    renderer), an accessor of anything else through With, a plain array by
    mapping the renderer over its items, and a plain scalar by one call of
    the renderer. *)
Theorem C9_transformWidget_dispatch (element index : Type)
    (fn : value -> option index -> element) (w : world) :
  (forall a items, acc_get a w = Ok (VArr items) ->
     transformWidget (Reactive a) fn w
     = Ok (For a (fun cval i => fn cval (Some i)))) /\
  (forall a v, acc_get a w = Ok v -> isArray v = false ->
     transformWidget (Reactive a) fn w = Ok (With a fn)) /\
  (forall items,
     transformWidget (Plain (VArr items)) fn w
     = Ok (Elements (map (fun val => fn val None) items))) /\
  (forall v, isArray v = false ->
     transformWidget (Plain v) fn w = Ok (Element (fn v None))).
Proof.
  repeat split.
  - intros a items Hget. simpl. rewrite Hget. reflexivity.
  - intros a v Hget Harr. simpl. rewrite Hget. simpl. rewrite Harr. reflexivity.
  - intros v Harr. destruct v; try reflexivity. discriminate.
Qed.

Lemma C9_transformWidget_dispatch_witness :
  acc_get (AState 1) world0 = Ok (VNum 2) /\
  isArray (VNum 2) = false /\
  transformWidget (Reactive (AState 1))
    (fun v (i : option nat) => (v, i)) world0
  = Ok (With (AState 1) (fun v i => (v, i))).
Proof.
  split; [reflexivity|]. split; [reflexivity|].
  apply (proj1 (proj2 (C9_transformWidget_dispatch _ _ _ world0)) _ (VNum 2));
    reflexivity.
Defined.

(** ** createSecureBinding *)




(** ** The nested bindings: createAccessorBinding, createSecureAccessorBinding *)

(** Creation over a state cell: a fresh environment caches the resolved
    host and the outer listener is subscribed at once. *)
Lemma nested_binding_state (dv : option value) (c : nat) (cl : cell)
    (prop : string) (w : world) :
  cells w !! c = Some cl ->
  nested_binding dv (AState c) prop w
  = Ok (match dv with
        | None => AAccessorBinding (next_id w) prop (DCell c (Pos.succ (next_id w)))
        | Some d =>
            ASecureAccessorBinding (next_id w) prop d (DCell c (Pos.succ (next_id w)))
        end,
        World (hosts w)
              (<[c := Cell (c_value cl)
                        (c_subs cl ++ [(Pos.succ (next_id w),
                                        CbBase (next_id w) (AState c))])]>
                 (cells w))
              (<[next_id w := Env (c_value cl) None]> (envs w))
              (Pos.succ (Pos.succ (next_id w))) (scope w) (trace w)).
Proof.
  intros Hc.
  destruct dv; unfold nested_binding, createAccessorBinding,
    createSecureAccessorBinding; simpl; rewrite Hc; simpl;
    unfold cell_subscribe; simpl; rewrite Hc; reflexivity.
Qed.

Lemma nested_subscribe_host (i : positive) (prop : string) (baseSub : dispose)
    (cb : callback) (w : world) (e : closure_env) (l : nat) (h : host) :
  envs w !! i = Some e -> e_gobj e = VObj l ->
  hosts w !! l = Some h -> h_alive h = true ->
  nested_subscribe i prop baseSub cb w
  = Ok (DNested i (Some (next_id w)) baseSub,
        World (<[l := Host (h_own h) (h_proto h)
                        (h_handlers h ++ [(next_id w, notify_signal prop, CbNotify i)])
                        (h_alive h) (h_gobject h)]> (hosts w))
              (cells w)
              (<[i := Env (VObj l) (Some cb)]> (envs w))
              (Pos.succ (next_id w)) (scope w) (trace w)).
Proof.
  intros He Hg Hl Ha. unfold nested_subscribe, env_set_notify, env_gobj.
  rewrite He. map_simpl. rewrite Hg. simpl. rewrite Hl, Ha. reflexivity.
Qed.

Lemma nested_subscribe_absent (i : positive) (prop : string) (baseSub : dispose)
    (cb : callback) (w : world) (e : closure_env) :
  envs w !! i = Some e -> nullish (e_gobj e) = true ->
  nested_subscribe i prop baseSub cb w
  = Ok (DNested i None baseSub,
        World (hosts w) (cells w) (<[i := Env (e_gobj e) (Some cb)]> (envs w))
              (next_id w) (scope w) (trace w)).
Proof.
  intros He Hn. unfold nested_subscribe, env_set_notify, env_gobj.
  rewrite He. map_simpl. rewrite Hn. reflexivity.
Qed.

(** The outer listener (index.ts 102-113, 163-174): the cached host is
    replaced, by undefined when the new one is falsy, and the subscriber
    stored in [notify] is called once; nothing is connected or
    disconnected. *)
Lemma call_CbBase (fuel : nat) (i : positive) (a : accessor) (w : world)
    (v : value) (e : closure_env) (cb : callback) :
  acc_get a w = Ok v -> envs w !! i = Some e -> e_notify e = Some cb ->
  call (S fuel) (CbBase i a) w
  = call fuel cb
      (World (hosts w) (cells w)
             (<[i := Env (if Boolean v then v else VUndefined) (Some cb)]> (envs w))
             (next_id w) (scope w) (trace w)).
Proof.
  intros Hget He Hn. simpl. rewrite Hget. simpl. unfold env_set_gobj.
  rewrite He, Hn.
  destruct (Boolean v); simpl; unfold invoke_notify; map_simpl; reflexivity.
Qed.

(** Before any subscribe, [notify] holds no function: the outer listener
    raises a TypeError. *)
Lemma call_CbBase_unsubscribed (fuel : nat) (i : positive) (a : accessor)
    (w : world) (v : value) (e : closure_env) :
  acc_get a w = Ok v -> envs w !! i = Some e -> e_notify e = None ->
  call (S fuel) (CbBase i a) w = Throw TypeError.
Proof.
  intros Hget He Hn. simpl. rewrite Hget. simpl. unfold env_set_gobj.
  rewrite He, Hn.
  destruct (Boolean v); simpl; unfold invoke_notify; map_simpl; reflexivity.
Qed.

Lemma same_value_obj_nullish (l : nat) (v : value) :
  nullish v = true -> same_value (VObj l) v = false.
Proof. destruct v; simpl; congruence. Qed.

(** C2: with a subscriber attached, a change of the outer accessor to an
    absent host notifies the subscriber exactly once; the getter of
    createAccessorBinding then dereferences the cleared [gobj] and raises
    a TypeError instead of giving undefined. *)
Theorem C2_createAccessorBinding_host_lost (w : world) (c : nat) (cl : cell)
    (A : nat) (hA : host) (prop : string) (v : value) (k fuel : nat) :
  cells w !! c = Some cl -> c_value cl = VObj A -> c_subs cl = [] ->
  hosts w !! A = Some hA -> h_alive hA = true ->
  nullish v = true ->
  exists acc w1 dsp w2 w3,
    createAccessorBinding (AState c) prop w = Ok (acc, w1) /\
    acc_subscribe acc (CbLog k) w1 = Ok (dsp, w2) /\
    acc_get acc w2 = Ok (host_get hA prop) /\
    cell_set (S (S fuel)) c v w2 = Ok w3 /\
    trace w3 = trace w ++ [EvCall k] /\
    acc_get acc w3 = Throw TypeError.
Proof.
  intros Hc Hv Hs HA HaA Hn.
  do 5 eexists.
  split; [by apply (nested_binding_state None)|].
  split.
  { simpl. eapply (nested_subscribe_host _ _ _ _ _ (Env (c_value cl) None) A hA);
      map_simpl; done. }
  split.
  { simpl. unfold env_gobj. map_simpl. reflexivity. }
  split.
  { unfold cell_set. map_simpl. rewrite Hv, (same_value_obj_nullish _ _ Hn), Hs.
    map_simpl. rewrite (Boolean_nullish _ Hn). simpl.
    unfold env_set_gobj. map_simpl. unfold invoke_notify. map_simpl.
    reflexivity. }
  split; [reflexivity|].
  simpl. unfold env_gobj. map_simpl. reflexivity.
Qed.

Lemma C2_createAccessorBinding_host_lost_witness :
  exists acc dsp w3,
    nested_then_change None VUndefined = Ok (acc, dsp, w3) /\
    trace w3 = [EvCall 7] /\
    acc_get acc w3 = Throw TypeError.
Proof.
  destruct (C2_createAccessorBinding_host_lost world0 0 (Cell (VObj 1) []) 1 hostA
              "x" VUndefined 7 0)
    as (acc & w1 & dsp & w2 & w3 & H1 & H2 & _ & H3 & H4 & H5);
    try reflexivity.
  exists acc, dsp, w3. split; [|split; assumption].
  unfold nested_then_change, nested_binding. rewrite H1. simpl.
  rewrite H2. simpl. rewrite H3. reflexivity.
Defined.

(** C3, as the code has it: for a nested binding that has a subscriber and
    whose outer listener is still attached (it is attached at creation and
    released by the first unsubscribe), a change of the outer accessor
    from host A to host B makes the outer listener replace the cached host
    and call the subscriber exactly once, the derived value going from A's
    property value to B's; nothing is disconnected or connected: the inner
    property-change listener stays on A and none is connected to B.  When
    the outer accessor goes from no host to host B, one notification fires
    as well and no inner listener is connected anywhere.  Both nested
    helpers behave so. *)
Theorem C3_host_replaced_listener_kept (dv : option value) (w : world) (c : nat)
    (cl : cell) (B : nat) (hB : host) (prop : string) (k fuel : nat) :
  (forall w' i a e cb,
     envs w' !! i = Some e -> e_notify e = Some cb ->
     acc_get a w' = Ok (VObj B) ->
     call (S fuel) (CbBase i a) w'
     = call fuel cb
         (World (hosts w') (cells w')
                (<[i := Env (VObj B) (Some cb)]> (envs w'))
                (next_id w') (scope w') (trace w'))) /\
  (cells w !! c = Some cl -> c_subs cl = [] -> hosts w !! B = Some hB ->
   (forall A hA, c_value cl = VObj A -> hosts w !! A = Some hA ->
      h_alive hA = true -> A <> B ->
      exists acc w1 dsp w2 w3,
        nested_binding dv (AState c) prop w = Ok (acc, w1) /\
        acc_subscribe acc (CbRead k acc) w1 = Ok (dsp, w2) /\
        acc_get acc w2 = Ok (host_get hA prop) /\
        cell_set (S (S fuel)) c (VObj B) w2 = Ok w3 /\
        trace w3 = trace w ++ [EvRead k (host_get hB prop)] /\
        acc_get acc w3 = Ok (host_get hB prop) /\
        handlers_of A w3
          = h_handlers hA ++ [(Pos.succ (Pos.succ (next_id w)), notify_signal prop,
                               CbNotify (next_id w))] /\
        handlers_of B w3 = h_handlers hB) /\
   (nullish (c_value cl) = true ->
      exists acc w1 dsp w2 w3,
        nested_binding dv (AState c) prop w = Ok (acc, w1) /\
        acc_subscribe acc (CbRead k acc) w1 = Ok (dsp, w2) /\
        cell_set (S (S fuel)) c (VObj B) w2 = Ok w3 /\
        trace w3 = trace w ++ [EvRead k (host_get hB prop)] /\
        acc_get acc w3 = Ok (host_get hB prop) /\
        hosts w3 = hosts w)).
Proof.
  split.
  { intros w' i a e cb He Hn Hget.
    by rewrite (call_CbBase fuel i a w' (VObj B) e cb). }
  intros Hc Hs HB. split.
  - intros A hA Hv HA HaA Hne.
    assert (Hneq : (A =? B)%nat = false) by by apply Nat.eqb_neq.
    destruct dv as [d|].
    all: do 5 eexists.
    all: split; [by apply nested_binding_state|].
    all: split;
      [simpl; eapply (nested_subscribe_host _ _ _ _ _ (Env (c_value cl) None) A hA);
       map_simpl; done|].
    all: split; [simpl; unfold env_gobj; map_simpl; reflexivity|].
    all: split;
      [unfold cell_set; map_simpl; rewrite Hv; simpl; rewrite Hneq, Hs;
       map_simpl; unfold env_set_gobj; map_simpl; unfold invoke_notify; map_simpl;
       unfold env_gobj; map_simpl; rewrite HB; reflexivity|].
    all: split; [reflexivity|].
    all: unfold handlers_of; simpl; unfold env_gobj; map_simpl; rewrite HB; done.
  - intros Hn.
    assert (Hsv : same_value (c_value cl) (VObj B) = false)
      by (destruct (c_value cl); simpl in *; congruence).
    destruct dv as [d|].
    all: do 5 eexists.
    all: split; [by apply nested_binding_state|].
    all: split;
      [simpl; eapply (nested_subscribe_absent _ _ _ _ _ (Env (c_value cl) None));
       map_simpl; done|].
    all: split;
      [unfold cell_set; map_simpl; rewrite Hsv, Hs;
       map_simpl; unfold env_set_gobj; map_simpl; unfold invoke_notify; map_simpl;
       unfold env_gobj; map_simpl; rewrite HB; reflexivity|].
    all: split; [reflexivity|].
    all: split; [|reflexivity].
    all: simpl; unfold env_gobj; map_simpl; rewrite HB; done.
Qed.

Lemma C3_host_replaced_listener_kept_witness :
  exists acc w1 dsp w2 w3,
    nested_binding None (AState 0) "x" world0 = Ok (acc, w1) /\
    acc_subscribe acc (CbRead 7 acc) w1 = Ok (dsp, w2) /\
    cell_set 2 0 (VObj 2) w2 = Ok w3 /\
    trace w3 = [EvRead 7 (VNum 2)] /\
    handlers_of 1 w3 = [(3%positive, "notify::x", CbNotify 1)] /\
    handlers_of 2 w3 = [].
Proof.
  destruct (proj1 (proj2 (C3_host_replaced_listener_kept None world0 0
                            (Cell (VObj 1) []) 2 hostB "x" 7 0)
                     eq_refl eq_refl eq_refl)
              1%nat hostA eq_refl eq_refl eq_refl)
    as (acc & w1 & dsp & w2 & w3 & H1 & H2 & _ & H3 & H4 & _ & H5 & H6);
    [lia|].
  exists acc, w1, dsp, w2, w3. repeat split; assumption.
Defined.

(** C3 as stated fails: after the outer accessor went from host 1 to host
    2, the inner listener is still on host 1 and host 2 has none. *)
Lemma C3_counterexample :
  exists acc dsp w3,
    nested_then_change None (VObj 2) = Ok (acc, dsp, w3) /\
    ~ (inner_listeners 1 1 w3 = [] /\ inner_listeners 1 2 w3 <> []).
Proof.
  do 3 eexists. split; [vm_compute; reflexivity|].
  intros [H _]. vm_compute in H. discriminate.
Qed.

(** C4, as the code has it: the listener on the outer accessor is attached
    when the binding is created, before any subscribe, and no inner
    listener exists then; subscribing attaches the inner property-change
    listener on the currently resolved host (none when no host is
    resolved); unsubscribing, the resolved host being still the same,
    releases the inner and the outer listener.  Both nested helpers
    behave so. *)
Theorem C4_listener_lifecycle (dv : option value) (w : world) (c : nat)
    (cl : cell) (prop : string) (cb : callback) :
  cells w !! c = Some cl ->
  let i := next_id w in
  let sid := Pos.succ i in
  let hid := Pos.succ sid in
  (forall A hA, c_value cl = VObj A -> hosts w !! A = Some hA ->
     h_alive hA = true ->
     exists acc w1 dsp w2 w3,
       nested_binding dv (AState c) prop w = Ok (acc, w1) /\
       subs_of c w1 = c_subs cl ++ [(sid, CbBase i (AState c))] /\
       hosts w1 = hosts w /\
       acc_subscribe acc cb w1 = Ok (dsp, w2) /\
       handlers_of A w2 = h_handlers hA ++ [(hid, notify_signal prop, CbNotify i)] /\
       subs_of c w2 = subs_of c w1 /\
       run_dispose dsp w2 = Ok w3 /\
       ((hid, notify_signal prop, CbNotify i) ∉ handlers_of A w3) /\
       (sid, CbBase i (AState c)) ∉ subs_of c w3) /\
  (nullish (c_value cl) = true ->
     exists acc w1 dsp w2 w3,
       nested_binding dv (AState c) prop w = Ok (acc, w1) /\
       subs_of c w1 = c_subs cl ++ [(sid, CbBase i (AState c))] /\
       hosts w1 = hosts w /\
       acc_subscribe acc cb w1 = Ok (dsp, w2) /\
       hosts w2 = hosts w /\
       subs_of c w2 = subs_of c w1 /\
       run_dispose dsp w2 = Ok w3 /\
       hosts w3 = hosts w /\
       (sid, CbBase i (AState c)) ∉ subs_of c w3).
Proof.
  intros Hc i sid hid. split.
  - intros A hA Hv HA HaA.
    destruct dv as [d|].
    all: do 5 eexists.
    all: split; [by apply nested_binding_state|].
    all: split; [unfold subs_of; map_simpl; reflexivity|].
    all: split; [reflexivity|].
    all: split;
      [simpl; eapply (nested_subscribe_host _ _ _ _ _ (Env (c_value cl) None) A hA);
       map_simpl; done|].
    all: split; [unfold handlers_of; map_simpl; reflexivity|].
    all: split; [reflexivity|].
    all: split;
      [simpl; unfold env_gobj; map_simpl; rewrite HaA; simpl;
       unfold cell_unsubscribe; map_simpl; reflexivity|].
    all: unfold handlers_of, subs_of; map_simpl.
    all: split; intros Hin; apply list_elem_of_filter in Hin as [Hne _];
      by apply Hne.
  - intros Hn.
    destruct dv as [d|].
    all: do 5 eexists.
    all: split; [by apply nested_binding_state|].
    all: split; [unfold subs_of; map_simpl; reflexivity|].
    all: split; [reflexivity|].
    all: split;
      [simpl; eapply (nested_subscribe_absent _ _ _ _ _ (Env (c_value cl) None));
       map_simpl; done|].
    all: split; [reflexivity|].
    all: split; [reflexivity|].
    all: split;
      [simpl; unfold env_gobj; map_simpl;
       unfold cell_unsubscribe; map_simpl; reflexivity|].
    all: split; [reflexivity|].
    all: unfold subs_of; map_simpl.
    all: intros Hin; apply list_elem_of_filter in Hin as [Hne _]; by apply Hne.
Qed.

Lemma C4_listener_lifecycle_witness :
  exists acc w1 dsp w2 w3,
    nested_binding None (AState 0) "x" world0 = Ok (acc, w1) /\
    subs_of 0 w1 = [(2%positive, CbBase 1 (AState 0))] /\
    acc_subscribe acc (CbLog 7) w1 = Ok (dsp, w2) /\
    handlers_of 1 w2 = [(3%positive, "notify::x", CbNotify 1)] /\
    run_dispose dsp w2 = Ok w3 /\
    (3%positive, "notify::x", CbNotify 1) ∉ handlers_of 1 w3.
Proof.
  destruct (proj1 (C4_listener_lifecycle None world0 0 (Cell (VObj 1) []) "x"
                     (CbLog 7) eq_refl)
              1%nat hostA eq_refl eq_refl eq_refl)
    as (acc & w1 & dsp & w2 & w3 & H1 & H2 & _ & H3 & H4 & _ & H5 & H6 & _).
  exists acc, w1, dsp, w2, w3. repeat split; assumption.
Defined.

(** Unsubscribing after the outer accessor has moved on: the teardown
    asks host 2 to drop an id it never gave out, and the listener on host 1
    stays. *)
Example release_after_host_replaced :
  exists acc dsp w3 w4,
    nested_then_change None (VObj 2) = Ok (acc, dsp, w3) /\
    run_dispose dsp w3 = Ok w4 /\
    handlers_of 1 w4 = [(3%positive, "notify::x", CbNotify 1)] /\
    subs_of 0 w4 = [].
Proof. do 4 eexists. split; [vm_compute; reflexivity|]. by vm_compute. Qed.

(** C4 as stated fails: right after creation, before any subscribe, the
    outer state cell already carries the binding's listener. *)
Lemma C4_counterexample :
  exists acc w1,
    createAccessorBinding (AState 0) "x" world0 = Ok (acc, w1) /\
    ~ (outer_listeners 1 0 w1 = [] /\ inner_listeners 1 1 w1 = []).
Proof.
  do 2 eexists. split; [vm_compute; reflexivity|].
  intros [H _]. vm_compute in H. discriminate.
Qed.

(** ** Releasing a connection to a disposed host *)

Lemma run_dispose_DSecureBinding_total (gobj : value) (id : positive) (w : world) :
  exists w', run_dispose (DSecureBinding gobj id) w = Ok w'.
Proof.
  simpl. unfold disconnect.
  destruct gobj; simpl; eauto.
  destruct (hosts w !! l) as [h|]; simpl; eauto.
  destruct (h_alive h); simpl; eauto.
Qed.

(** C5, as the code has it: the unsubscribe returned by createSecureBinding
    never propagates an error, whatever has happened to the host in the
    meantime: an error raised by disconnect is caught and the world is
    left as it is.  The teardown of createAccessorBinding and the cleanup
    registered by createScopedConnection call disconnect unguarded: an
    error raised by disconnect propagates, as it does on a host that has
    been disposed. *)
Theorem C5_disconnect_guard (w : world) (A : nat) (hA : host) (prop : string)
    (cb : callback) :
  hosts w !! A = Some hA -> h_alive hA = true ->
  (forall d, exists dsp w1,
     acc_subscribe (createSecureBinding (VObj A) prop d) cb w = Ok (dsp, w1) /\
     (forall w', exists w'', run_dispose dsp w' = Ok w'') /\
     (forall w' e, disconnect (VObj A) (next_id w) w' = Throw e ->
        run_dispose dsp w' = Ok w') /\
     run_dispose dsp (dispose_host A w1) = Ok (dispose_host A w1)) /\
  (forall c cl, cells w !! c = Some cl -> c_value cl = VObj A ->
     exists acc w1 dsp w2,
       createAccessorBinding (AState c) prop w = Ok (acc, w1) /\
       acc_subscribe acc cb w1 = Ok (dsp, w2) /\
       (forall w' e, env_gobj (next_id w) w' = Ok (VObj A) ->
          disconnect (VObj A) (next_id w1) w' = Throw e ->
          run_dispose dsp w' = Throw e) /\
       run_dispose dsp (dispose_host A w2) = Throw DisposedError) /\
  (forall signal cleanups, scope w = Some cleanups ->
     exists dsp w1,
       createScopedConnection (VObj A) signal cb w = Ok w1 /\
       scope w1 = Some (cleanups ++ [dsp]) /\
       (forall w' e, disconnect (VObj A) (next_id w) w' = Throw e ->
          run_dispose dsp w' = Throw e) /\
       run_dispose dsp (dispose_host A w1) = Throw DisposedError).
Proof.
  intros HA HaA. repeat split.
  - intros d. do 2 eexists. split.
    { simpl. rewrite HA, HaA. reflexivity. }
    split; [intros w'; apply run_dispose_DSecureBinding_total|].
    split.
    + intros w' e He. cbn [run_dispose]. rewrite He. reflexivity.
    + simpl. unfold dispose_host. map_simpl. reflexivity.
  - intros c cl Hc Hv. do 4 eexists.
    split; [by apply (nested_binding_state None)|].
    split.
    { simpl. eapply (nested_subscribe_host _ _ _ _ _ (Env (c_value cl) None) A hA);
        map_simpl; done. }
    split.
    + intros w' e Hg He. cbn [run_dispose next_id] in *. rewrite Hg.
      cbn [bind nullish]. rewrite He. reflexivity.
    + simpl. unfold dispose_host, env_gobj. map_simpl. reflexivity.
  - intros signal cleanups Hsc. do 2 eexists.
    unfold createScopedConnection, getScope, onCleanup, getScope. rewrite Hsc.
    simpl. rewrite HA, HaA. simpl. rewrite Hsc. simpl.
    split; [reflexivity|]. split; [reflexivity|]. split.
    + intros w' e He. cbn [run_dispose]. exact He.
    + unfold dispose_host. map_simpl. reflexivity.
Qed.

Lemma C5_disconnect_guard_witness :
  exists dsp w1,
    acc_subscribe (createSecureBinding (VObj 1) "x" VNull) (CbLog 7) world0
      = Ok (dsp, w1) /\
    run_dispose dsp (dispose_host 1 w1) = Ok (dispose_host 1 w1).
Proof.
  destruct (proj1 (C5_disconnect_guard world0 1 hostA "x" (CbLog 7)
                     eq_refl eq_refl) VNull)
    as (dsp & w1 & H1 & _ & _ & H2).
  exists dsp, w1. split; assumption.
Defined.

(** C5 as stated fails: the teardown of createAccessorBinding, run after
    the resolved host was disposed, propagates the error of disconnect. *)
Lemma C5_counterexample :
  ~ (exists w', nested_then_dispose_then_release = Ok w').
Proof. intros [w' H]. vm_compute in H. discriminate. Qed.

(** ** createSecureAccessorBinding: the default value *)

(** C6, as the code has it: while the outer listener of a binding made by
    createSecureAccessorBinding is attached (from creation until the first
    unsubscribe), the accessor reads the default d whenever the resolved
    host is absent: when the outer accessor resolves to null or undefined
    at creation, and after the outer accessor of the subscribed binding
    went from a resolved host to null or undefined; that transition makes
    the outer listener clear the cached host and call the subscriber
    exactly once, and the value read then is d. *)
Theorem C6_createSecureAccessorBinding_default (w : world) (c : nat) (cl : cell)
    (prop : string) (d : value) (k fuel : nat) :
  (forall w' i a e cb v,
     envs w' !! i = Some e -> e_notify e = Some cb ->
     acc_get a w' = Ok v -> Boolean v = false ->
     call (S fuel) (CbBase i a) w'
     = call fuel cb
         (World (hosts w') (cells w')
                (<[i := Env VUndefined (Some cb)]> (envs w'))
                (next_id w') (scope w') (trace w'))) /\
  (forall w' i e baseSub, envs w' !! i = Some e -> Boolean (e_gobj e) = false ->
     acc_get (ASecureAccessorBinding i prop d baseSub) w' = Ok d) /\
  (cells w !! c = Some cl ->
   (nullish (c_value cl) = true ->
      exists acc w1 dsp w2,
        createSecureAccessorBinding (AState c) prop d w = Ok (acc, w1) /\
        acc_get acc w1 = Ok d /\
        acc_subscribe acc (CbRead k acc) w1 = Ok (dsp, w2) /\
        acc_get acc w2 = Ok d) /\
   (forall A hA v, c_value cl = VObj A -> hosts w !! A = Some hA ->
      h_alive hA = true -> c_subs cl = [] -> nullish v = true ->
      exists acc w1 dsp w2 w3,
        createSecureAccessorBinding (AState c) prop d w = Ok (acc, w1) /\
        acc_subscribe acc (CbRead k acc) w1 = Ok (dsp, w2) /\
        acc_get acc w2 = Ok (host_get hA prop) /\
        cell_set (S (S fuel)) c v w2 = Ok w3 /\
        trace w3 = trace w ++ [EvRead k d] /\
        acc_get acc w3 = Ok d)).
Proof.
  split; [|split].
  { intros w' i a e cb v He Hn Hget Hb.
    rewrite (call_CbBase fuel i a w' v e cb) by done. by rewrite Hb. }
  { intros w' i e baseSub He Hb. simpl. unfold env_gobj. rewrite He. simpl.
    rewrite Hb. reflexivity. }
  intros Hc. split.
  - intros Hn. do 4 eexists.
    split; [by apply (nested_binding_state (Some d))|].
    split.
    { simpl. unfold env_gobj. map_simpl.
      rewrite (Boolean_nullish _ Hn). reflexivity. }
    split.
    { simpl. eapply (nested_subscribe_absent _ _ _ _ _ (Env (c_value cl) None));
        map_simpl; done. }
    simpl. unfold env_gobj. map_simpl. rewrite (Boolean_nullish _ Hn). reflexivity.
  - intros A hA v Hv HA HaA Hs Hn. do 5 eexists.
    split; [by apply (nested_binding_state (Some d))|].
    split.
    { simpl. eapply (nested_subscribe_host _ _ _ _ _ (Env (c_value cl) None) A hA);
        map_simpl; done. }
    split.
    { simpl. unfold env_gobj. map_simpl. reflexivity. }
    split.
    { unfold cell_set. map_simpl. rewrite Hv, (same_value_obj_nullish _ _ Hn), Hs.
      map_simpl. rewrite (Boolean_nullish _ Hn). simpl.
      unfold env_set_gobj. map_simpl. unfold invoke_notify. map_simpl.
      unfold env_gobj. map_simpl. reflexivity. }
    split; [reflexivity|].
    simpl. unfold env_gobj. map_simpl. reflexivity.
Qed.

Lemma C6_createSecureAccessorBinding_default_witness :
  exists acc w1 dsp w2 w3,
    createSecureAccessorBinding (AState 0) "x" (VNum (-1)) world0 = Ok (acc, w1) /\
    acc_subscribe acc (CbRead 7 acc) w1 = Ok (dsp, w2) /\
    acc_get acc w2 = Ok (VNum 1) /\
    cell_set 2 0 VUndefined w2 = Ok w3 /\
    trace w3 = [EvRead 7 (VNum (-1))] /\
    acc_get acc w3 = Ok (VNum (-1)).
Proof.
  apply (proj2 (proj2 (proj2 (C6_createSecureAccessorBinding_default world0 0
                                (Cell (VObj 1) []) "x" (VNum (-1)) 7 0))
                  eq_refl)
           1%nat hostA VUndefined);
    reflexivity.
Defined.

(** C6 as stated fails: after an unsubscribe the outer listener is gone;
    the outer accessor then resolves to undefined, nobody is notified, and
    the binding, subscribed again, still reads host 1's value 1, not the
    default -1. *)
Lemma C6_counterexample :
  exists acc w,
    resubscribed_then_host_lost = Ok (acc, w) /\
    acc_get (AState 0) w = Ok VUndefined /\
    trace w = [] /\
    ~ (acc_get acc w = Ok (VNum (-1))).
Proof.
  do 2 eexists. split; [vm_compute; reflexivity|].
  split; [reflexivity|]. split; [reflexivity|].
  intros H. vm_compute in H. discriminate.
Qed.

(** ** construct *)

Lemma assign_spec (klass : nat) (k : string) (v : value) (w : world) (h : host) :
  hosts w !! klass = Some h ->
  assign klass k v w
  = Ok (World (<[klass := Host (<[k := v]> (h_own h)) (h_proto h) (h_handlers h)
                              (h_alive h) (h_gobject h)]> (hosts w))
              (cells w) (envs w) (next_id w) (scope w) (trace w)).
Proof. intros Hl. unfold assign. rewrite Hl. reflexivity. Qed.

Lemma assign_frame (klass : nat) (k : string) (v : value) (w w' : world) :
  assign klass k v w = Ok w' ->
  trace w' = trace w /\ cells w' = cells w /\
  own_field klass k w' = Some v /\
  (forall l k', l <> klass \/ k' <> k -> own_field l k' w' = own_field l k' w).
Proof.
  unfold assign. destruct (hosts w !! klass) as [h|] eqn:Hl; [|discriminate].
  intros [= <-]. unfold own_field. simpl. repeat split.
  - map_simpl. done.
  - intros l k' Hor. destruct (decide (l = klass)) as [->|Hne].
    + destruct Hor as [?|Hk]; [done|]. map_simpl. by rewrite Hl.
    + by rewrite lookup_insert_ne.
Qed.

Lemma connect_frame (gobj : value) (signal : string) (cb : callback)
    (w w' : world) (id : positive) :
  connect gobj signal cb w = Ok (id, w') ->
  trace w' = trace w /\ cells w' = cells w /\
  (forall l k, own_field l k w' = own_field l k w).
Proof.
  unfold connect. destruct gobj; try discriminate.
  destruct (hosts w !! l) as [h|] eqn:Hl; [|discriminate].
  destruct (h_alive h); [|discriminate].
  intros [= <- <-]. simpl. repeat split.
  intros l' k. unfold own_field. simpl.
  destruct (decide (l' = l)) as [->|Hne].
  - map_simpl. by rewrite Hl.
  - by rewrite lookup_insert_ne.
Qed.

(** Subscribing never calls the subscriber: it leaves the trace, the cell
    values and every field of every host as they are. *)
Lemma acc_subscribe_frame (a : accessor) (cb : callback) (w w' : world)
    (d : dispose) :
  acc_subscribe a cb w = Ok (d, w') ->
  trace w' = trace w /\ (forall l k, own_field l k w' = own_field l k w).
Proof.
  revert cb w w' d.
  assert (Hnested : forall i prop baseSub cb w w' d,
            nested_subscribe i prop baseSub cb w = Ok (d, w') ->
            trace w' = trace w /\ (forall l k, own_field l k w' = own_field l k w)).
  { intros i prop baseSub cb w w' d. unfold nested_subscribe, env_set_notify.
    destruct (envs w !! i) as [e|] eqn:He; [|discriminate]. simpl.
    unfold env_gobj. map_simpl.
    destruct (nullish (e_gobj e)); simpl.
    - intros [= <- <-]. done.
    - destruct (connect _ _ _ _) as [[id w1]| |] eqn:Hconn; try discriminate.
      simpl. intros [= <- <-].
      apply connect_frame in Hconn as (Ht & _ & Ho). done. }
  induction a as [c|a IH f|gobj prop dv|i prop baseSub|i prop dv baseSub];
    intros cb w w' d; simpl.
  - unfold cell_subscribe. destruct (cells w !! c); [|discriminate].
    intros [= <- <-]. done.
  - apply IH.
  - destruct (connect _ _ _ _) as [[id w1]| |] eqn:Hconn; try discriminate.
    simpl. intros [= <- <-].
    apply connect_frame in Hconn as (Ht & _ & Ho). done.
  - apply Hnested.
  - apply Hnested.
Qed.

Lemma assigned_keys_subset (props : list (string * input)) (k : string) :
  k ∈ assigned_keys props -> k ∈ map fst props.
Proof.
  unfold assigned_keys. induction props as [|e rest IH]; simpl; [done|].
  destruct (negb (is_skipped e)); simpl.
  - intros [->|Hin]%elem_of_cons; [by left|right; auto].
  - intros Hin. right. auto.
Qed.

(** construct assigns fields and subscribes, and nothing else: no
    notification is emitted, and a field is untouched unless an entry
    that is not undefined names it. *)
Lemma construct_each_frame (klass : nat) (isG : bool) (props : list (string * input)) :
  forall subs w subs' w',
    construct_each klass isG props subs w = Ok (subs', w') ->
    trace w' = trace w /\
    (forall l k, l <> klass \/ k ∉ assigned_keys props ->
       own_field l k w' = own_field l k w).
Proof.
  induction props as [|[k v] rest IH]; intros subs w subs' w'; simpl.
  - intros [= <- <-]. done.
  - destruct v as [x|a].
    + assert (Hplain :
          (let! w1 := assign klass k x w in construct_each klass isG rest subs w1)
          = Ok (subs', w') ->
          trace w' = trace w /\
          (forall l k0, l <> klass \/ k0 ∉ k :: assigned_keys rest ->
             own_field l k0 w' = own_field l k0 w)).
      { intros H. apply bind_Ok in H as (w1 & Ha & Hrest).
        apply assign_frame in Ha as (Ht & _ & _ & Ho).
        apply IH in Hrest as (Ht' & Ho'). split; [congruence|].
        intros l k0 Hor. rewrite Ho'.
        - apply Ho. destruct Hor as [?|Hk]; [by left|right].
          intros ->. apply Hk. by left.
        - destruct Hor as [?|Hk]; [by left|right].
          intros Hin. apply Hk. by right. }
      destruct x; try exact Hplain.
      apply IH.
    + intros H. apply bind_Ok in H as ([sub w1] & Hs & H).
      apply bind_Ok in H as (x & Hg & H).
      apply bind_Ok in H as (w2 & Ha & Hrest).
      apply acc_subscribe_frame in Hs as (Ht1 & Ho1).
      apply assign_frame in Ha as (Ht2 & _ & _ & Ho2).
      apply IH in Hrest as (Ht3 & Ho3). split; [congruence|].
      intros l k0 Hor. unfold assigned_keys in Hor. simpl in Hor.
      rewrite Ho3, Ho2, Ho1; [done| |].
      * destruct Hor as [?|Hk]; [by left|right].
        intros ->. apply Hk. by left.
      * destruct Hor as [?|Hk]; [by left|right].
        intros Hin. apply Hk. by right.
Qed.

(** Notifications only ever extend the trace. *)
Lemma run_all_trace (run : callback -> world -> outcome world) :
  (forall cb w w', run cb w = Ok w' -> exists t, trace w' = trace w ++ t) ->
  forall cbs w w', run_all run cbs w = Ok w' -> exists t, trace w' = trace w ++ t.
Proof.
  intros Hrun. induction cbs as [|cb rest IH]; intros w w'; simpl.
  - intros [= <-]. exists []. by rewrite app_nil_r.
  - intros H. apply bind_Ok in H as (w1 & H1 & H2).
    apply Hrun in H1 as [t1 Ht1]. apply IH in H2 as [t2 Ht2].
    exists (t1 ++ t2). by rewrite Ht2, Ht1, app_assoc.
Qed.

Lemma call_trace (fuel : nat) :
  forall cb w w', call fuel cb w = Ok w' -> exists t, trace w' = trace w ++ t.
Proof.
  induction fuel as [|fuel IH]; intros cb w w'; [discriminate|].
  assert (Hinv : forall i w0 w1, invoke_notify (call fuel) i w0 = Ok w1 ->
            exists t, trace w1 = trace w0 ++ t).
  { intros i w0 w1. unfold invoke_notify.
    destruct (envs w0 !! i) as [e|]; [|discriminate].
    destruct (e_notify e); [apply IH|discriminate]. }
  assert (Hset : forall i v w0 w1, env_set_gobj i v w0 = Ok w1 -> trace w1 = trace w0).
  { intros i v w0 w1. unfold env_set_gobj.
    destruct (envs w0 !! i); [|discriminate]. by intros [= <-]. }
  destruct cb; simpl.
  - intros [= <-]. by eexists.
  - intros H. apply bind_Ok in H as (v & _ & [= <-]). by eexists.
  - intros H. apply bind_Ok in H as (v & _ & H).
    destruct (negb (Boolean v)); apply bind_Ok in H as (w1 & Hs & H);
      apply Hset in Hs; apply Hinv in H as [t Ht]; exists t; congruence.
  - apply Hinv.
  - apply IH.
  - intros H. apply bind_Ok in H as (x & _ & H).
    apply bind_Ok in H as (w1 & Ha & H).
    apply assign_frame in Ha as (Ht & _).
    destruct isGObject.
    + unfold host_notify, emit in H. simpl in H.
      destruct (hosts w1 !! klass) as [h|]; [|discriminate].
      destruct (h_alive h); [|discriminate].
      apply (run_all_trace _ IH) in H as [t Ht']. simpl in Ht'.
      exists ([EvNotify klass (kebab k)] ++ t).
      by rewrite Ht', Ht, app_assoc.
    + injection H as <-. exists []. by rewrite app_nil_r.
  - apply IH.
Qed.

(** C10: construct itself never emits the host's change notification,
    neither for a plain value nor for the initial value of an accessor,
    whether or not the target is a GObject, and it leaves every field
    that the props do not name as it was; the notification (kebab-case
    name) comes from the subscription callback, after it re-assigned the
    field, and only for a GObject target. *)
Theorem C10_construct_no_notify (klass : nat) (props : list (string * input))
    (w w' : world) (subs : list dispose) :
  construct klass props w = Ok (subs, w') ->
  trace w' = trace w /\
  (forall l k, l <> klass \/ k ∉ map fst props ->
     own_field l k w' = own_field l k w) /\
  (forall fuel k a w2 w3,
     call (S fuel) (CbConstruct klass k a true) w2 = Ok w3 ->
     exists x t, acc_get a w2 = Ok x /\
       trace w3 = trace w2 ++ EvNotify klass (kebab k) :: t) /\
  (forall fuel k a w2 w3,
     call (S fuel) (CbConstruct klass k a false) w2 = Ok w3 ->
     exists x, acc_get a w2 = Ok x /\ trace w3 = trace w2 /\
       own_field klass k w3 = Some x).
Proof.
  intros H. apply construct_each_frame in H as (Ht & Ho).
  split; [done|]. split.
  { intros l k Hor. apply Ho. destruct Hor as [?|Hk]; [by left|right].
    intros Hin. by apply Hk, assigned_keys_subset. }
  split.
  - intros fuel k a w2 w3 Hc. simpl in Hc.
    apply bind_Ok in Hc as (x & Hx & Hc).
    apply bind_Ok in Hc as (w1 & Ha & Hc).
    apply assign_frame in Ha as (Ht1 & _).
    unfold host_notify, emit in Hc. simpl in Hc.
    destruct (hosts w1 !! klass) as [h|]; [|discriminate].
    destruct (h_alive h); [|discriminate].
    apply (run_all_trace _ (call_trace fuel)) in Hc as [t Ht2]. simpl in Ht2.
    exists x, t. split; [done|]. by rewrite Ht2, Ht1, <- app_assoc.
  - intros fuel k a w2 w3 Hc. simpl in Hc.
    apply bind_Ok in Hc as (x & Hx & Hc).
    apply bind_Ok in Hc as (w1 & Ha & [= <-]).
    apply assign_frame in Ha as (Ht1 & _ & Hf & _). eauto.
Qed.

Lemma C10_construct_no_notify_witness :
  exists subs w',
    construct 1 example_props world0 = Ok (subs, w') /\
    trace w' = trace world0 /\
    own_field 1 "x" w' = own_field 1 "x" world0.
Proof.
  assert (H : exists subs w', construct 1 example_props world0 = Ok (subs, w'))
    by (vm_compute; eauto).
  destruct H as (subs & w' & H). exists subs, w'. split; [exact H|].
  destruct (C10_construct_no_notify _ _ _ _ _ H) as (Ht & Ho & _).
  split; [exact Ht|]. apply Ho. right. simpl. intros Hin.
  repeat (apply elem_of_cons in Hin as [Hin|Hin]; [discriminate|]).
  by apply elem_of_nil in Hin.
Defined.










(** construct with props [{a: 1, b: accessorOf(2), c: undefined}] on a
    GObject, then the accessor goes to 3: [a] is 1, [b] is 3, [c] was
    never assigned, one release function came back, and the only
    notification is the one of the subscription callback. *)
Example construct_then_update_result :
  exists subs w,
    construct_then_update = Ok (subs, w) /\
    subs = [DCell 1 1] /\
    own_field 1 "a" w = Some (VNum 1) /\
    own_field 1 "b" w = Some (VNum 3) /\
    own_field 1 "c" w = None /\
    trace w = [EvNotify 1 "b"].
Proof. do 2 eexists. split; [vm_compute; reflexivity|]. by vm_compute. Qed.

(** The inner listener at work: the change on host 1 and the move of the
    outer cell notify the subscriber; the later change on host 2 does not,
    although the binding reads host 2 by then. *)
Example nested_then_host_changes_result :
  exists acc w,
    nested_then_host_changes = Ok (acc, w) /\
    trace w = [EvRead 7 (VNum 10); EvRead 7 (VNum 2)] /\
    acc_get acc w = Ok (VNum 20).
Proof. do 2 eexists. split; [vm_compute; reflexivity|]. by vm_compute. Qed.

(** * Further properties of the helpers *)

(** ** The camelCase to kebab-case mapping *)

Lemma is_upper_to_lower (c : ascii) : is_upper c = true -> is_upper (to_lower c) = false.
Proof.
  destruct c as [[] [] [] [] [] [] [] []]; intros H; try discriminate H; reflexivity.
Qed.

(** X1: the event name built from a property name never contains an
    uppercase letter [A-Z]: kebab replaces each one by a dash and its
    lowercase form. *)
Theorem kebab_no_upper (s : string) : no_upper (kebab s) = true.
Proof.
  induction s as [|c rest IH]; simpl; [reflexivity|].
  destruct (is_upper c) eqn:E; simpl.
  - rewrite (is_upper_to_lower _ E). simpl. exact IH.
  - rewrite E. simpl. exact IH.
Qed.

Lemma kebab_fixed (s : string) : no_upper s = true -> kebab s = s.
Proof.
  induction s as [|c rest IH]; simpl; [reflexivity|].
  intros [Hc Hr]%andb_true_iff. apply negb_true_iff in Hc. rewrite Hc.
  by rewrite IH.
Qed.

(** X2: kebab is idempotent and leaves a name without uppercase letters
    as it is, so a camelCase property and its kebab-case spelling lead to
    the same event name. *)
Theorem kebab_idempotent (s : string) :
  kebab (kebab s) = kebab s /\
  notify_signal (kebab s) = notify_signal s.
Proof.
  assert (H : kebab (kebab s) = kebab s) by apply kebab_fixed, kebab_no_upper.
  split; [exact H|]. unfold notify_signal. by rewrite H.
Qed.

(** ** toBoolean against Boolean *)

(** X3: toBoolean agrees with JavaScript's Boolean on every plain value
    except the empty array, which Boolean takes for true; applying
    toBoolean twice changes nothing. *)
Theorem toBoolean_vs_Boolean (v : value) :
  (toBoolean (Plain v) = Plain (VBool (Boolean v)) <-> v <> VArr []) /\
  toBoolean (toBoolean (Plain v)) = toBoolean (Plain v).
Proof.
  split.
  - destruct v; simpl; try (split; [discriminate|reflexivity]).
    destruct items; simpl.
    + split; [discriminate|]. intros H. by destruct H.
    + split; [discriminate|reflexivity].
  - destruct v; try reflexivity.
Qed.

Lemma toBoolean_vs_Boolean_witness :
  VNum 1 <> VArr [] /\
  toBoolean (Plain (VNum 1)) = Plain (VBool (Boolean (VNum 1))).
Proof.
  split; [discriminate|].
  apply (proj2 (proj1 (toBoolean_vs_Boolean (VNum 1)))). discriminate.
Defined.

(** ** createSecureBinding: the subscription *)

Lemma listeners_snoc (name : string) (own proto : gmap string value)
    (hs : list (positive * string * callback)) (alive gobject : bool)
    (id : positive) (cb : callback) :
  listeners name (Host own proto (hs ++ [(id, "notify::" +:+ name, cb)]) alive gobject)
  = listeners name (Host own proto hs alive gobject) ++ [cb].
Proof.
  unfold listeners. cbn [h_handlers]. rewrite List.filter_app, map_app.
  f_equal. cbn [List.filter]. unfold listens. cbn [fst snd].
  rewrite String.eqb_refl. reflexivity.
Qed.

Lemma listeners_own (name : string) (own own' proto : gmap string value)
    (hs : list (positive * string * callback)) (alive gobject : bool) :
  listeners name (Host own proto hs alive gobject)
  = listeners name (Host own' proto hs alive gobject).
Proof. reflexivity. Qed.

Lemma filter_id_fresh (hs : list (positive * string * callback)) (id : positive) :
  Forall (fun e => e.1.1 <> id) hs -> filter (fun e => e.1.1 <> id) hs = hs.
Proof.
  induction 1 as [|e rest He _ IH]; [reflexivity|].
  rewrite filter_cons_True by done. by rewrite IH.
Qed.

Lemma filter_id_snoc (hs : list (positive * string * callback)) (id : positive)
    (signal : string) (cb : callback) :
  filter (fun e => e.1.1 <> id) (hs ++ [(id, signal, cb)])
  = filter (fun e => e.1.1 <> id) hs.
Proof.
  rewrite filter_app. rewrite filter_cons_False by (simpl; auto).
  rewrite filter_nil. by rewrite app_nil_r.
Qed.

Lemma listeners_filter_nil (name : string) (own proto : gmap string value)
    (hs : list (positive * string * callback)) (alive gobject : bool)
    (id : positive) :
  listeners name (Host own proto hs alive gobject) = [] ->
  listeners name (Host own proto (filter (fun e => e.1.1 <> id) hs) alive gobject) = [].
Proof.
  unfold listeners. cbn [h_handlers]. induction hs as [|e rest IH]; [done|].
  cbn [List.filter]. destruct (listens name e) eqn:E.
  - discriminate.
  - intros H. destruct (decide (e.1.1 <> id)).
    + rewrite filter_cons_True by done. cbn [List.filter]. rewrite E. by apply IH.
    + rewrite filter_cons_False by done. by apply IH.
Qed.

(** X4: a subscriber of the accessor of createSecureBinding is notified
    exactly once when the toolkit changes the bound field, whatever the
    case of the property name, and reads the new value then. *)
Theorem createSecureBinding_notifies (w : world) (A : nat) (hA : host)
    (prop : string) (d v : value) (k fuel : nat) :
  hosts w !! A = Some hA -> h_alive hA = true ->
  listeners (kebab prop) hA = [] ->
  let acc := createSecureBinding (VObj A) prop d in
  exists dsp w1 w2,
    acc_subscribe acc (CbRead k acc) w = Ok (dsp, w1) /\
    handlers_of A w1
      = h_handlers hA ++ [(next_id w, notify_signal prop, CbSecureNotify (CbRead k acc))] /\
    host_change (S (S fuel)) A prop v w1 = Ok w2 /\
    trace w2 = trace w ++ [EvRead k v] /\
    acc_get acc w2 = Ok v.
Proof.
  intros HA HaA Hl acc. destruct hA as [own proto hs alive gobject].
  simpl in HaA. subst alive.
  do 3 eexists. split.
  { simpl. rewrite HA. simpl. reflexivity. }
  split.
  { unfold handlers_of. map_simpl. reflexivity. }
  split.
  { unfold host_change, assign. map_simpl. unfold emit. map_simpl.
    rewrite listeners_snoc. rewrite (listeners_own _ _ own), Hl.
    map_simpl. reflexivity. }
  split; [simpl; unfold host_get; map_simpl; reflexivity|].
  map_simpl. unfold host_get. map_simpl. reflexivity.
Qed.

Lemma createSecureBinding_notifies_witness :
  exists dsp w1 w2,
    acc_subscribe (createSecureBinding (VObj 1) "iconName" VNull)
      (CbRead 7 (createSecureBinding (VObj 1) "iconName" VNull)) world1
      = Ok (dsp, w1) /\
    handlers_of 1 w1
      = [(1%positive, "notify::icon-name",
          CbSecureNotify (CbRead 7 (createSecureBinding (VObj 1) "iconName" VNull)))] /\
    host_change 2 1 "iconName" (VStr "b") w1 = Ok w2 /\
    trace w2 = [EvRead 7 (VStr "b")] /\
    acc_get (createSecureBinding (VObj 1) "iconName" VNull) w2 = Ok (VStr "b").
Proof.
  apply (createSecureBinding_notifies world1 1 _ "iconName" VNull (VStr "b") 7 0
           eq_refl eq_refl eq_refl).
Defined.

(** X5: subscribing to the accessor of createSecureBinding and then
    unsubscribing leaves the host's handlers exactly as they were, and a
    later change of the field notifies nobody. *)
Theorem createSecureBinding_unsubscribe (w : world) (A : nat) (hA : host)
    (prop : string) (d v : value) (cb : callback) (fuel : nat) :
  hosts w !! A = Some hA -> h_alive hA = true ->
  fresh_handler_id hA w ->
  listeners (kebab prop) hA = [] ->
  exists dsp w1 w2 w3,
    acc_subscribe (createSecureBinding (VObj A) prop d) cb w = Ok (dsp, w1) /\
    run_dispose dsp w1 = Ok w2 /\
    handlers_of A w2 = h_handlers hA /\
    host_change fuel A prop v w2 = Ok w3 /\
    trace w3 = trace w.
Proof.
  intros HA HaA Hfresh Hl. destruct hA as [own proto hs alive gobject].
  simpl in HaA. subst alive. unfold fresh_handler_id in Hfresh. simpl in Hfresh.
  do 4 eexists. split.
  { simpl. rewrite HA. simpl. reflexivity. }
  split.
  { simpl. map_simpl. reflexivity. }
  split.
  { unfold handlers_of. map_simpl. rewrite filter_id_snoc.
    by apply filter_id_fresh. }
  split.
  { unfold host_change, assign. map_simpl. unfold emit. map_simpl.
    rewrite filter_id_snoc, (filter_id_fresh _ _ Hfresh).
    rewrite (listeners_own _ _ own), Hl. reflexivity. }
  reflexivity.
Qed.

Lemma createSecureBinding_unsubscribe_witness :
  exists dsp w1 w2 w3,
    acc_subscribe (createSecureBinding (VObj 1) "iconName" VNull) (CbLog 7) world1
      = Ok (dsp, w1) /\
    run_dispose dsp w1 = Ok w2 /\
    handlers_of 1 w2 = [] /\
    host_change 2 1 "iconName" (VStr "b") w2 = Ok w3 /\
    trace w3 = [].
Proof.
  apply (createSecureBinding_unsubscribe world1 1 _ "iconName" VNull (VStr "b")
           (CbLog 7) 2 eq_refl eq_refl).
  - constructor.
  - reflexivity.
Defined.

(** X6: the accessor of createSecureBinding over an absent host can be
    read (it gives the default) but not subscribed to: subscribe raises a
    TypeError; on a disposed host subscribe raises the toolkit's error. *)
Theorem createSecureBinding_subscribe_errors (prop : string) (d : value)
    (cb : callback) (w : world) :
  (forall gobj, nullish gobj = true ->
     acc_get (createSecureBinding gobj prop d) w = Ok d /\
     acc_subscribe (createSecureBinding gobj prop d) cb w = Throw TypeError) /\
  (forall A hA, hosts w !! A = Some hA -> h_alive hA = false ->
     acc_subscribe (createSecureBinding (VObj A) prop d) cb w = Throw DisposedError).
Proof.
  split.
  - intros gobj Hn. destruct gobj; try discriminate; split; reflexivity.
  - intros A hA HA Hd. simpl. rewrite HA, Hd. reflexivity.
Qed.

Lemma createSecureBinding_subscribe_errors_witness :
  acc_get (createSecureBinding VUndefined "x" (VNum 0)) world0 = Ok (VNum 0) /\
  acc_subscribe (createSecureBinding VUndefined "x" (VNum 0)) (CbLog 7) world0
    = Throw TypeError.
Proof.
  apply (proj1 (createSecureBinding_subscribe_errors "x" (VNum 0) (CbLog 7) world0)).
  reflexivity.
Defined.

(** ** The scoped helpers: createSubscription, createScopedConnection *)

Lemma connect_scope (gobj : value) (signal : string) (cb : callback)
    (w w' : world) (id : positive) :
  connect gobj signal cb w = Ok (id, w') -> scope w' = scope w.
Proof.
  unfold connect. destruct gobj; try discriminate.
  destruct (hosts w !! l) as [h|]; [|discriminate].
  destruct (h_alive h); [|discriminate].
  by intros [= <- <-].
Qed.

Lemma acc_subscribe_scope (a : accessor) (cb : callback) (w w' : world)
    (d : dispose) :
  acc_subscribe a cb w = Ok (d, w') -> scope w' = scope w.
Proof.
  revert cb w w' d.
  assert (Hnested : forall i prop baseSub cb w w' d,
            nested_subscribe i prop baseSub cb w = Ok (d, w') -> scope w' = scope w).
  { intros i prop baseSub cb w w' d. unfold nested_subscribe, env_set_notify.
    destruct (envs w !! i) as [e|] eqn:He; [|discriminate]. simpl.
    unfold env_gobj. map_simpl.
    destruct (nullish (e_gobj e)); simpl.
    - by intros [= <- <-].
    - destruct (connect _ _ _ _) as [[id w1]| |] eqn:Hconn; try discriminate.
      simpl. intros [= <- <-]. by apply connect_scope in Hconn. }
  induction a as [c|a IH f|gobj prop dv|i prop baseSub|i prop dv baseSub];
    intros cb w w' d; simpl.
  - unfold cell_subscribe. destruct (cells w !! c); [|discriminate].
    by intros [= <- <-].
  - apply IH.
  - destruct (connect _ _ _ _) as [[id w1]| |] eqn:Hconn; try discriminate.
    simpl. intros [= <- <-]. by apply connect_scope in Hconn.
  - apply Hnested.
  - apply Hnested.
Qed.

(** X7: whatever the accessor or the host, a scoped helper that succeeds
    has appended the release of what it created to the cleanups of the
    ambient scope, after those already registered: createSubscription the
    unsubscribe, createScopedConnection the disconnect of the handler it
    connected; when the subscribe or connect raises, so does the helper. *)
Theorem scoped_helpers_register (w : world) (cleanups : list dispose) :
  scope w = Some cleanups ->
  (forall a cb d w', acc_subscribe a cb w = Ok (d, w') ->
     exists w1, createSubscription a cb w = Ok w1 /\
       scope w1 = Some (cleanups ++ [d]) /\
       hosts w1 = hosts w' /\ cells w1 = cells w' /\ trace w1 = trace w) /\
  (forall a cb e, acc_subscribe a cb w = Throw e ->
     createSubscription a cb w = Throw e) /\
  (forall gobj signal cb id w', connect gobj signal (CbSignal cb) w = Ok (id, w') ->
     exists w1, createScopedConnection gobj signal cb w = Ok w1 /\
       scope w1 = Some (cleanups ++ [DScopedConnection gobj id]) /\
       hosts w1 = hosts w' /\ cells w1 = cells w' /\ trace w1 = trace w) /\
  (forall gobj signal cb e, connect gobj signal (CbSignal cb) w = Throw e ->
     createScopedConnection gobj signal cb w = Throw e).
Proof.
  intros Hsc. repeat split.
  - intros a cb d w' Hs. unfold createSubscription, getScope. rewrite Hsc. simpl.
    rewrite Hs. simpl. unfold onCleanup, getScope.
    rewrite (acc_subscribe_scope _ _ _ _ _ Hs), Hsc. simpl.
    eexists. split; [reflexivity|]. simpl. repeat split.
    by apply acc_subscribe_frame in Hs as [-> _].
  - intros a cb e Hs. unfold createSubscription, getScope. rewrite Hsc. simpl.
    by rewrite Hs.
  - intros gobj signal cb id w' Hc. unfold createScopedConnection, getScope.
    rewrite Hsc. simpl. rewrite Hc. simpl. unfold onCleanup, getScope.
    rewrite (connect_scope _ _ _ _ _ _ Hc), Hsc. simpl.
    eexists. split; [reflexivity|]. simpl. repeat split.
    by apply connect_frame in Hc as [-> _].
  - intros gobj signal cb e Hc. unfold createScopedConnection, getScope.
    rewrite Hsc. simpl. by rewrite Hc.
Qed.

Lemma scoped_helpers_register_witness :
  exists w1, createSubscription (AState 1) (CbLog 7) world0 = Ok w1 /\
    scope w1 = Some [DCell 1 1].
Proof.
  destruct (proj1 (scoped_helpers_register world0 [] eq_refl)
              (AState 1) (CbLog 7) (DCell 1 1)
              (bump_id (set_cells <[1%nat := Cell (VNum 2) [(1%positive, CbLog 7)]]> world0))
              eq_refl)
    as (w1 & H1 & H2 & _).
  exists w1. split; assumption.
Defined.

(** X8: a callback registered with createSubscription runs once per change
    of the accessor; after the teardown of the scope the subscription is
    gone and a later change no longer runs it. *)
Theorem createSubscription_lifecycle (w : world) (c : nat) (cl : cell)
    (v : value) (k fuel : nat) :
  cells w !! c = Some cl -> c_subs cl = [] -> scope w = Some [] ->
  same_value (c_value cl) v = false ->
  exists w1 w2 w3 w4,
    createSubscription (AState c) (CbLog k) w = Ok w1 /\
    cell_set (S fuel) c v w1 = Ok w2 /\
    trace w2 = trace w ++ [EvCall k] /\
    scope_dispose w1 = Ok w3 /\
    subs_of c w3 = [] /\
    cell_set fuel c v w3 = Ok w4 /\
    trace w4 = trace w.
Proof.
  intros Hc Hs Hsc Hsv. do 4 eexists.
  split.
  { unfold createSubscription, getScope. rewrite Hsc. simpl.
    unfold cell_subscribe. rewrite Hc. simpl. unfold onCleanup, getScope. simpl.
    rewrite Hsc. simpl. reflexivity. }
  split.
  { unfold cell_set. map_simpl. rewrite Hsv, Hs. reflexivity. }
  split; [reflexivity|].
  split.
  { unfold scope_dispose, getScope. simpl. unfold cell_unsubscribe. map_simpl.
    reflexivity. }
  split.
  { unfold subs_of. map_simpl. rewrite Hs. simpl.
    rewrite filter_cons_False by (simpl; auto). reflexivity. }
  split.
  { unfold cell_set. map_simpl. rewrite Hsv, Hs. simpl.
    rewrite filter_cons_False by (simpl; auto). reflexivity. }
  reflexivity.
Qed.

Lemma createSubscription_lifecycle_witness :
  exists w1 w2 w3 w4,
    createSubscription (AState 1) (CbLog 7) world0 = Ok w1 /\
    cell_set 1 1 (VNum 3) w1 = Ok w2 /\
    trace w2 = [EvCall 7] /\
    scope_dispose w1 = Ok w3 /\
    subs_of 1 w3 = [] /\
    cell_set 0 1 (VNum 3) w3 = Ok w4 /\
    trace w4 = [].
Proof.
  apply (createSubscription_lifecycle world0 1 (Cell (VNum 2) []) (VNum 3) 7 0);
    reflexivity.
Defined.

(** X9: a handler registered with createScopedConnection runs the callback
    once per emission of its signal; after the teardown of the scope the
    host's handlers are as they were before, and an emission no longer
    runs the callback. *)
Theorem createScopedConnection_lifecycle (w : world) (A : nat) (hA : host)
    (signal : string) (k fuel : nat) :
  hosts w !! A = Some hA -> h_alive hA = true -> scope w = Some [] ->
  fresh_handler_id hA w ->
  List.filter (fun e => String.eqb e.1.2 signal) (h_handlers hA) = [] ->
  exists w1 w2 w3 w4,
    createScopedConnection (VObj A) signal (CbLog k) w = Ok w1 /\
    emit_signal (call (S (S fuel))) A signal w1 = Ok w2 /\
    trace w2 = trace w ++ [EvCall k] /\
    scope_dispose w1 = Ok w3 /\
    handlers_of A w3 = h_handlers hA /\
    emit_signal (call fuel) A signal w3 = Ok w4 /\
    trace w4 = trace w.
Proof.
  intros HA HaA Hsc Hfresh Hl. unfold fresh_handler_id in Hfresh.
  destruct hA as [own proto hs alive gobject]. simpl in *. subst alive.
  do 4 eexists.
  split.
  { unfold createScopedConnection, getScope. rewrite Hsc. simpl.
    rewrite HA. simpl. unfold onCleanup, getScope. simpl. rewrite Hsc.
    simpl. reflexivity. }
  split.
  { unfold emit_signal. map_simpl.
    rewrite List.filter_app, Hl. cbn [List.filter fst snd app map].
    rewrite String.eqb_refl. reflexivity. }
  split; [reflexivity|].
  split.
  { unfold scope_dispose, getScope. map_simpl. reflexivity. }
  split.
  { unfold handlers_of. map_simpl. rewrite filter_id_snoc.
    by apply filter_id_fresh. }
  split.
  { unfold emit_signal. map_simpl.
    rewrite filter_id_snoc, (filter_id_fresh _ _ Hfresh), Hl. reflexivity. }
  reflexivity.
Qed.

Lemma createScopedConnection_lifecycle_witness :
  exists w1 w2 w3 w4,
    createScopedConnection (VObj 1) "clicked" (CbLog 7) world0 = Ok w1 /\
    emit_signal (call 2) 1 "clicked" w1 = Ok w2 /\
    trace w2 = [EvCall 7] /\
    scope_dispose w1 = Ok w3 /\
    handlers_of 1 w3 = [] /\
    emit_signal (call 0) 1 "clicked" w3 = Ok w4 /\
    trace w4 = [].
Proof.
  apply (createScopedConnection_lifecycle world0 1 hostA "clicked" 7 0
           eq_refl eq_refl eq_refl).
  - constructor.
  - reflexivity.
Defined.

(** ** filter *)

Lemma filter_from_sublist (fn : value -> nat -> list value -> value)
    (arr rest : list value) :
  forall i, sublist (filter_from fn arr i rest) rest.
Proof.
  induction rest as [|x rest IH]; intros i; simpl; [constructor|].
  destruct (Boolean (fn x i arr)).
  - by apply sublist_skip.
  - by apply sublist_cons.
Qed.

Lemma filter_from_elem (fn : value -> nat -> list value -> value)
    (arr rest : list value) :
  forall i x,
    x ∈ filter_from fn arr i rest <->
    exists j, rest !! j = Some x /\ Boolean (fn x (i + j) arr) = true.
Proof.
  induction rest as [|y rest IH]; intros i x; simpl.
  - split; [by intros ?%elem_of_nil|]. by intros (j & ? & _).
  - assert (Hrest : x ∈ filter_from fn arr (S i) rest <->
              exists j, (y :: rest) !! S j = Some x /\
                        Boolean (fn x (i + S j) arr) = true).
    { rewrite IH. split; intros (j & H1 & H2); exists j; split; try done.
      - by rewrite Nat.add_succ_r.
      - by rewrite Nat.add_succ_r in H2. }
    destruct (Boolean (fn y i arr)) eqn:E.
    + rewrite elem_of_cons, Hrest. split.
      * intros [->|(j & H1 & H2)]; [|by exists (S j)].
        exists 0. by rewrite Nat.add_0_r.
      * intros ([|j] & H1 & H2); [left; by injection H1|right; by exists j].
    + rewrite Hrest. split.
      * intros (j & H1 & H2). by exists (S j).
      * intros ([|j] & H1 & H2); [|by exists j].
        injection H1 as <-. rewrite Nat.add_0_r in H2. congruence.
Qed.

Lemma filter_from_indexed (fn : value -> nat -> list value -> value)
    (arr rest : list value) :
  forall i,
    filter_from fn arr i rest
    = snd <$> filter (fun p => Boolean (fn p.2 p.1 arr) = true)
                (imap (fun j x => (i + j, x)) rest).
Proof.
  induction rest as [|y rest IH]; intros i; [reflexivity|].
  cbn [filter_from imap]. rewrite filter_cons. cbn [fst snd].
  rewrite Nat.add_0_r, (IH (S i)).
  assert (Hext : imap ((fun j x => (i + j, x)) ∘ S) rest
                 = imap (fun j (x : value) => (S i + j, x)) rest).
  { apply imap_ext. intros j x _. simpl. f_equal. lia. }
  rewrite Hext.
  destruct (Boolean (fn y i arr)) eqn:E.
  - rewrite decide_True by done. reflexivity.
  - rewrite decide_False by discriminate. reflexivity.
Qed.

(** X10: filter on a plain array returns, in the original order, exactly
    the occurrences of items for which the callback, given the item, its
    index and the whole array, returns a truthy value: the result is the
    array paired with its indices, filtered by the callback, with the
    indices dropped again; on a plain value that is not an array it raises
    a TypeError. *)
Theorem filter_plain (fn : value -> nat -> list value -> value) :
  (forall items, exists kept,
     Arrays.filter (Plain (VArr items)) fn = Ok (FilteredArray kept) /\
     kept = snd <$> filter (fun p => Boolean (fn p.2 p.1 items) = true)
                      (imap (fun j x => (j, x)) items) /\
     sublist kept items /\
     (forall x, x ∈ kept <->
        exists j, items !! j = Some x /\ Boolean (fn x j items) = true)) /\
  (forall v, isArray v = false -> Arrays.filter (Plain v) fn = Throw TypeError).
Proof.
  split.
  - intros items. eexists. split; [reflexivity|]. split; [|split].
    + apply (filter_from_indexed fn items items 0).
    + apply filter_from_sublist.
    + intros x. apply (filter_from_elem fn items items 0 x).
  - intros v Hv. destruct v; try reflexivity. discriminate.
Qed.

Lemma filter_plain_witness :
  isArray (VStr "ab") = false /\
  Arrays.filter (Plain (VStr "ab")) is_even = Throw TypeError.
Proof.
  split; [reflexivity|]. apply (proj2 (filter_plain is_even)). reflexivity.
Defined.

(** a repeated item: only the occurrence the callback accepts is kept *)
Example filter_first_occurrence :
  Arrays.filter (Plain (VArr [VNum 1; VNum 1]))
    (fun _ i _ => VBool (Nat.eqb i 0))
  = Ok (FilteredArray [VNum 1]).
Proof. reflexivity. Qed.

Example filter_even :
  Arrays.filter (Plain (VArr [VNum 1; VNum 2; VNum 3; VNum 4])) is_even
  = Ok (FilteredArray [VNum 2; VNum 4]).
Proof. reflexivity. Qed.

(** X11: filter on an accessor never fails at the call; the accessor it
    returns reads as the plain filter of the upstream array, raises a
    TypeError at the read when the upstream value is not an array, and a
    subscriber to it is notified by every change of the upstream state. *)
Theorem filter_reactive (fn : value -> nat -> list value -> value) (a : accessor) :
  exists d,
    Arrays.filter (Reactive a) fn = Ok (FilteredAccessor d) /\
    (forall w items kept, acc_get a w = Ok (VArr items) ->
       Arrays.filter (Plain (VArr items)) fn = Ok (FilteredArray kept) ->
       d_get d w = Ok (VArr kept)) /\
    (forall w x, acc_get a w = Ok x -> isArray x = false ->
       d_get d w = Throw TypeError) /\
    (forall w c cl items k fuel dsp w1,
       a = AState c -> cells w !! c = Some cl -> c_subs cl = [] ->
       d_subscribe d (CbLog k) w = Ok (dsp, w1) ->
       exists w2, cell_set (S fuel) c (VArr items) w1 = Ok w2 /\
         trace w2 = trace w ++ [EvCall k] /\
         d_get d w2 = Ok (VArr (array_filter fn items))).
Proof.
  eexists. split; [reflexivity|]. repeat split.
  - intros w items kept Hget [= <-]. simpl. rewrite Hget. reflexivity.
  - intros w x Hget Hx. simpl. rewrite Hget. simpl.
    destruct x; try reflexivity. discriminate.
  - intros w c cl items k fuel dsp w1 -> Hc Hs. simpl. unfold cell_subscribe.
    rewrite Hc. intros [= <- <-]. eexists. split.
    { unfold cell_set. map_simpl.
      assert (Hsv : same_value (c_value cl) (VArr items) = false)
        by (destruct (c_value cl); reflexivity).
      rewrite Hsv, Hs. reflexivity. }
    split; [reflexivity|]. map_simpl. reflexivity.
Qed.

Lemma filter_reactive_witness :
  exists d,
    Arrays.filter (Reactive (AState 0)) is_even = Ok (FilteredAccessor d) /\
    d_get d world1 = Ok (VArr [VNum 2; VNum 4]).
Proof.
  destruct (filter_reactive is_even (AState 0)) as (d & H1 & H2 & _).
  exists d. split; [exact H1|].
  apply (H2 world1 [VNum 1; VNum 2; VNum 3; VNum 4]); reflexivity.
Defined.

(** ** transform *)

(** X12: reading the result of transform is the mapping applied to what
    the input reads as, plain or reactive; two transforms in a row read as
    one transform with the composed mapping; and a subscriber of the
    transform of a state accessor is notified once per change of the state
    and reads the mapped new value. *)
Theorem transform_reads_mapped (f g : value -> value) (w : world) :
  (forall v, read (transform v f) w = let! x := read v w in Ok (f x)) /\
  (forall v, read (transform (transform v f) g) w
             = read (transform v (fun x => g (f x))) w) /\
  (forall c cl v' k fuel,
     cells w !! c = Some cl -> c_subs cl = [] ->
     same_value (c_value cl) v' = false ->
     exists a' dsp w1 w2,
       transform (Reactive (AState c)) f = Reactive a' /\
       acc_subscribe a' (CbRead k a') w = Ok (dsp, w1) /\
       cell_set (S (S fuel)) c v' w1 = Ok w2 /\
       trace w2 = trace w ++ [EvRead k (f v')]).
Proof.
  repeat split.
  - intros [x|a]; reflexivity.
  - intros [x|a]; simpl; [reflexivity|]. by destruct (acc_get a w).
  - intros c cl v' k fuel Hc Hs Hsv. do 4 eexists.
    split; [reflexivity|]. split.
    { simpl. unfold cell_subscribe. rewrite Hc. reflexivity. }
    split.
    { unfold cell_set. map_simpl. rewrite Hsv, Hs. map_simpl. reflexivity. }
    reflexivity.
Qed.

Lemma transform_reads_mapped_witness :
  exists a' dsp w1 w2,
    transform (Reactive (AState 1)) (fun x => VArr [x]) = Reactive a' /\
    acc_subscribe a' (CbRead 7 a') world0 = Ok (dsp, w1) /\
    cell_set 2 1 (VNum 3) w1 = Ok w2 /\
    trace w2 = [EvRead 7 (VArr [VNum 3])].
Proof.
  apply (proj2 (proj2 (transform_reads_mapped (fun x => VArr [x]) (fun x => x) world0))
           1%nat (Cell (VNum 2) []) (VNum 3) 7 0);
    reflexivity.
Defined.

(** ** More on the nested bindings *)



(** X14: once the outer accessor of a subscribed nested binding has moved
    from host A to host B, a change of the bound field on B notifies
    nobody, although the binding reads B; a change of the field on A still
    notifies the subscriber, who then reads B's value.  Both helpers. *)
Theorem nested_binding_replaced_host_untracked (dv : option value) (w : world)
    (c : nat) (cl : cell) (A B : nat) (hA hB : host) (prop : string)
    (v v' : value) (k fuel : nat) :
  cells w !! c = Some cl -> c_value cl = VObj A -> c_subs cl = [] ->
  hosts w !! A = Some hA -> h_alive hA = true ->
  hosts w !! B = Some hB -> h_alive hB = true -> A <> B ->
  listeners (kebab prop) hA = [] -> listeners (kebab prop) hB = [] ->
  exists acc w1 dsp w2 w3 w4 w5,
    nested_binding dv (AState c) prop w = Ok (acc, w1) /\
    acc_subscribe acc (CbLog k) w1 = Ok (dsp, w2) /\
    cell_set (S (S fuel)) c (VObj B) w2 = Ok w3 /\
    trace w3 = trace w ++ [EvCall k] /\
    host_change (S (S fuel)) B prop v w3 = Ok w4 /\
    trace w4 = trace w3 /\
    acc_get acc w4 = Ok v /\
    host_change (S (S fuel)) A prop v' w4 = Ok w5 /\
    trace w5 = trace w3 ++ [EvCall k] /\
    acc_get acc w5 = Ok v.
Proof.
  intros Hc Hv Hs HA HaA HB HaB Hne HlA HlB.
  assert (Hneq : (A =? B)%nat = false) by by apply Nat.eqb_neq.
  destruct hA as [ownA protoA hsA aliveA gobjectA].
  destruct hB as [ownB protoB hsB aliveB gobjectB].
  simpl in HaA, HaB. subst aliveA aliveB.
  destruct dv as [d|].
  all: do 7 eexists.
  all: split; [by apply nested_binding_state|].
  all: split;
    [simpl; eapply (nested_subscribe_host _ _ _ _ _ (Env (c_value cl) None) A _);
     map_simpl; done|].
  all: split;
    [unfold cell_set; map_simpl; rewrite Hv; simpl; rewrite Hneq, Hs;
     map_simpl; unfold env_set_gobj; map_simpl; unfold invoke_notify; map_simpl;
     reflexivity|].
  all: split; [reflexivity|].
  all: split;
    [unfold host_change, assign; map_simpl; rewrite HB; map_simpl;
     unfold emit; map_simpl; rewrite (listeners_own _ _ ownB), HlB;
     reflexivity|].
  all: split; [reflexivity|].
  all: split;
    [simpl; unfold env_gobj; map_simpl; unfold host_get; map_simpl; reflexivity|].
  all: split;
    [unfold host_change, assign; map_simpl;
     unfold emit; map_simpl;
     unfold notify_signal; rewrite listeners_snoc, (listeners_own _ _ ownA), HlA;
     map_simpl; unfold invoke_notify; map_simpl; reflexivity|].
  all: split; [reflexivity|].
  all: simpl; unfold env_gobj; map_simpl; unfold host_get; map_simpl; reflexivity.
Qed.

Lemma nested_binding_replaced_host_untracked_witness :
  exists acc w1 dsp w2 w3 w4 w5,
    nested_binding None (AState 0) "x" world0 = Ok (acc, w1) /\
    acc_subscribe acc (CbLog 7) w1 = Ok (dsp, w2) /\
    cell_set 2 0 (VObj 2) w2 = Ok w3 /\
    trace w3 = [EvCall 7] /\
    host_change 2 2 "x" (VNum 20) w3 = Ok w4 /\
    trace w4 = trace w3 /\
    acc_get acc w4 = Ok (VNum 20) /\
    host_change 2 1 "x" (VNum 10) w4 = Ok w5 /\
    trace w5 = trace w3 ++ [EvCall 7] /\
    acc_get acc w5 = Ok (VNum 20).
Proof.
  apply (nested_binding_replaced_host_untracked None world0 0 (Cell (VObj 1) [])
           1 2 hostA hostB "x" (VNum 20) (VNum 10) 7 0);
    try reflexivity.
  lia.
Defined.

(** X15: a nested binding keeps a single [notify] variable: when a second
    subscriber subscribes, its callback replaces the first one.  A change
    of the bound field then runs the second callback twice, once per
    connected handler, and the first never; a change of the outer accessor
    runs the second callback once.  Both helpers. *)
Theorem nested_binding_last_subscriber_wins (dv : option value) (w : world)
    (c : nat) (cl : cell) (A : nat) (hA : host) (prop : string)
    (v v' : value) (k1 k2 fuel : nat) :
  cells w !! c = Some cl -> c_value cl = VObj A -> c_subs cl = [] ->
  hosts w !! A = Some hA -> h_alive hA = true ->
  listeners (kebab prop) hA = [] ->
  same_value (VObj A) v' = false ->
  exists acc w1 d1 w2 d2 w3 w4 w5,
    nested_binding dv (AState c) prop w = Ok (acc, w1) /\
    acc_subscribe acc (CbLog k1) w1 = Ok (d1, w2) /\
    acc_subscribe acc (CbLog k2) w2 = Ok (d2, w3) /\
    host_change (S (S fuel)) A prop v w3 = Ok w4 /\
    trace w4 = trace w ++ [EvCall k2; EvCall k2] /\
    cell_set (S (S fuel)) c v' w3 = Ok w5 /\
    trace w5 = trace w ++ [EvCall k2].
Proof.
  intros Hc Hv Hs HA HaA Hl Hsv.
  destruct hA as [own proto hs alive gobject].
  simpl in HaA. subst alive.
  destruct dv as [d|]; destruct (Boolean v') eqn:Hb.
  all: do 8 eexists.
  all: split; [by apply nested_binding_state|].
  all: split;
    [simpl; eapply (nested_subscribe_host _ _ _ _ _ (Env (c_value cl) None) A _);
     map_simpl; done|].
  all: split;
    [simpl; eapply (nested_subscribe_host _ _ _ _ _ (Env (VObj A) (Some (CbLog k1))) A _);
     map_simpl; done|].
  all: split;
    [unfold host_change, assign; map_simpl; unfold emit; map_simpl;
     unfold notify_signal; rewrite !listeners_snoc, (listeners_own _ _ own), Hl;
     map_simpl; unfold invoke_notify; map_simpl; reflexivity|].
  all: split; [simpl; by rewrite <- app_assoc|].
  all: split;
    [unfold cell_set; map_simpl; rewrite Hv, Hsv, Hs;
     map_simpl; rewrite Hb; map_simpl;
     unfold env_set_gobj; map_simpl; unfold invoke_notify; map_simpl;
     reflexivity|].
  all: reflexivity.
Qed.

Lemma nested_binding_last_subscriber_wins_witness :
  exists acc w1 d1 w2 d2 w3 w4 w5,
    nested_binding None (AState 0) "x" world0 = Ok (acc, w1) /\
    acc_subscribe acc (CbLog 1) w1 = Ok (d1, w2) /\
    acc_subscribe acc (CbLog 2) w2 = Ok (d2, w3) /\
    host_change 2 1 "x" (VNum 10) w3 = Ok w4 /\
    trace w4 = [EvCall 2; EvCall 2] /\
    cell_set 2 0 VNull w3 = Ok w5 /\
    trace w5 = [EvCall 2].
Proof.
  apply (nested_binding_last_subscriber_wins None world0 0 (Cell (VObj 1) [])
           1 hostA "x" (VNum 10) VNull 1 2 0);
    reflexivity.
Defined.

(** X16: the outer listener of a nested binding is live from creation, but
    [notify] holds no function until somebody subscribes: a change of the
    outer accessor before the first subscribe raises a TypeError out of
    the accessor's setter.  Both helpers. *)
Theorem nested_binding_change_before_subscribe (dv : option value) (w : world)
    (c : nat) (cl : cell) (prop : string) (v : value) (fuel : nat) :
  cells w !! c = Some cl -> c_subs cl = [] ->
  same_value (c_value cl) v = false ->
  exists acc w1,
    nested_binding dv (AState c) prop w = Ok (acc, w1) /\
    cell_set (S fuel) c v w1 = Throw TypeError.
Proof.
  intros Hc Hs Hsv. do 2 eexists.
  split; [by apply nested_binding_state|].
  unfold cell_set. map_simpl. rewrite Hsv, Hs. map_simpl.
  destruct (Boolean v); map_simpl; unfold env_set_gobj; map_simpl;
    unfold invoke_notify; map_simpl; reflexivity.
Qed.

Lemma nested_binding_change_before_subscribe_witness :
  exists acc w1,
    nested_binding (Some VNull) (AState 0) "x" world0 = Ok (acc, w1) /\
    cell_set 1 0 (VObj 2) w1 = Throw TypeError.
Proof.
  apply (nested_binding_change_before_subscribe (Some VNull) world0 0
           (Cell (VObj 1) []) "x" (VObj 2) 0);
    reflexivity.
Defined.

(** X17: unsubscribing releases the outer listener for good: after it the
    binding keeps reading the host it last resolved to.  Also with a new
    subscriber attached, a later change of the outer accessor notifies
    nobody and the read still goes to the old host (for the defaulted
    helper too, when the outer accessor became absent).  *)
Theorem nested_binding_stale_after_unsubscribe (dv : option value) (w : world)
    (c : nat) (cl : cell) (A : nat) (hA : host) (prop : string) (v : value)
    (cb : callback) (k fuel : nat) :
  cells w !! c = Some cl -> c_value cl = VObj A -> c_subs cl = [] ->
  hosts w !! A = Some hA -> h_alive hA = true ->
  same_value (VObj A) v = false ->
  exists acc w1 d1 w2 w3 d2 w4 w5,
    nested_binding dv (AState c) prop w = Ok (acc, w1) /\
    acc_subscribe acc cb w1 = Ok (d1, w2) /\
    run_dispose d1 w2 = Ok w3 /\
    acc_subscribe acc (CbLog k) w3 = Ok (d2, w4) /\
    subs_of c w4 = [] /\
    cell_set fuel c v w4 = Ok w5 /\
    acc_get (AState c) w5 = Ok v /\
    trace w5 = trace w /\
    acc_get acc w5 = Ok (host_get hA prop).
Proof.
  intros Hc Hv Hs HA HaA Hsv.
  destruct hA as [own proto hs alive gobject].
  simpl in HaA. subst alive.
  destruct dv as [d|].
  all: do 8 eexists.
  all: split; [by apply nested_binding_state|].
  all: split;
    [simpl; eapply (nested_subscribe_host _ _ _ _ _ (Env (c_value cl) None) A _);
     map_simpl; done|].
  all: split;
    [simpl; unfold env_gobj; map_simpl; unfold cell_unsubscribe; map_simpl;
     reflexivity|].
  all: split;
    [simpl; eapply (nested_subscribe_host _ _ _ _ _ (Env (VObj A) (Some cb)) A _);
     map_simpl; done|].
  all: assert (Hf : filter (fun e : positive * callback => e.1 <> Pos.succ (next_id w))
                 (c_subs cl ++ [(Pos.succ (next_id w), CbBase (next_id w) (AState c))])
               = [])
    by (rewrite Hs; simpl; by rewrite filter_cons_False by (simpl; auto)).
  all: split; [unfold subs_of; map_simpl; exact Hf|].
  all: split; [unfold cell_set; map_simpl; rewrite Hv, Hsv, Hf; reflexivity|].
  all: split; [map_simpl; reflexivity|].
  all: split; [reflexivity|].
  all: simpl; unfold env_gobj; map_simpl; reflexivity.
Qed.

Lemma nested_binding_stale_after_unsubscribe_witness :
  exists acc w1 d1 w2 w3 d2 w4 w5,
    nested_binding (Some (VNum (-1))) (AState 0) "x" world0 = Ok (acc, w1) /\
    acc_subscribe acc (CbLog 1) w1 = Ok (d1, w2) /\
    run_dispose d1 w2 = Ok w3 /\
    acc_subscribe acc (CbLog 7) w3 = Ok (d2, w4) /\
    subs_of 0 w4 = [] /\
    cell_set 2 0 VUndefined w4 = Ok w5 /\
    acc_get (AState 0) w5 = Ok VUndefined /\
    trace w5 = [] /\
    acc_get acc w5 = Ok (VNum 1).
Proof.
  apply (nested_binding_stale_after_unsubscribe (Some (VNum (-1))) world0 0
           (Cell (VObj 1) []) 1 hostA "x" VUndefined (CbLog 1) 7 2);
    reflexivity.
Defined.

(** ** More on construct *)

(** X18: construct composes with createSecureBinding: when an accessor
    entry of a GObject target changes, the field is re-assigned first and
    the notification that follows reaches a subscriber bound to that field
    of the target, who then reads the new value. *)
Theorem construct_notifies_bindings (w : world) (klass : nat) (h : host)
    (c : nat) (cl : cell) (k : string) (d v' : value) (n fuel : nat) :
  hosts w !! klass = Some h -> h_alive h = true -> h_gobject h = true ->
  listeners (kebab k) h = [] ->
  cells w !! c = Some cl -> c_subs cl = [] ->
  same_value (c_value cl) v' = false ->
  let bnd := createSecureBinding (VObj klass) k d in
  exists subs w1 dsp w2 w3,
    construct klass [(k, Reactive (AState c))] w = Ok (subs, w1) /\
    acc_get bnd w1 = Ok (c_value cl) /\
    acc_subscribe bnd (CbRead n bnd) w1 = Ok (dsp, w2) /\
    cell_set (S (S (S fuel))) c v' w2 = Ok w3 /\
    own_field klass k w3 = Some v' /\
    trace w3 = trace w ++ [EvNotify klass (kebab k); EvRead n v'].
Proof.
  intros Hh Ha Hg Hl Hc Hs Hsv bnd.
  destruct h as [own proto hs alive gobject]. simpl in Ha, Hg. subst alive gobject.
  do 5 eexists. split.
  { unfold construct, instanceof_GObject. rewrite Hh. simpl.
    unfold cell_subscribe. rewrite Hc. map_simpl. unfold assign. map_simpl.
    rewrite Hh. reflexivity. }
  split.
  { map_simpl. unfold host_get. map_simpl. reflexivity. }
  split.
  { map_simpl. reflexivity. }
  split.
  { unfold cell_set. map_simpl. rewrite Hsv, Hs. map_simpl.
    unfold assign. map_simpl. unfold host_notify, emit. map_simpl.
    rewrite listeners_snoc, (listeners_own _ _ own), Hl. map_simpl.
    unfold host_get. map_simpl. reflexivity. }
  split.
  { unfold own_field. map_simpl. reflexivity. }
  simpl. by rewrite <- app_assoc.
Qed.

Lemma construct_notifies_bindings_witness :
  exists subs w1 dsp w2 w3,
    construct 1 [("iconName", Reactive (AState 0))] world1 = Ok (subs, w1) /\
    acc_subscribe (createSecureBinding (VObj 1) "iconName" VNull)
      (CbRead 7 (createSecureBinding (VObj 1) "iconName" VNull)) w1 = Ok (dsp, w2) /\
    cell_set 3 0 (VStr "b") w2 = Ok w3 /\
    own_field 1 "iconName" w3 = Some (VStr "b") /\
    trace w3 = [EvNotify 1 "icon-name"; EvRead 7 (VStr "b")].
Proof.
  destruct (construct_notifies_bindings world1 1 _ 0 _ "iconName" VNull (VStr "b") 7 0
              eq_refl eq_refl eq_refl eq_refl eq_refl eq_refl eq_refl)
    as (subs & w1 & dsp & w2 & w3 & H1 & _ & H2 & H3 & H4 & H5).
  exists subs, w1, dsp, w2, w3. repeat split; assumption.
Defined.

Lemma filter_keep_all {A} (P : A -> Prop) `{!forall x, Decision (P x)} (l : list A) :
  Forall P l -> filter P l = l.
Proof.
  induction 1 as [|e rest He _ IH]; [reflexivity|].
  rewrite filter_cons_True by done. by rewrite IH.
Qed.

Lemma filter_drop_all {A} (P : A -> Prop) `{!forall x, Decision (P x)} (l : list A) :
  Forall (fun x => ~ P x) l -> filter P l = [].
Proof.
  induction 1 as [|e rest He _ IH]; [reflexivity|].
  rewrite filter_cons_False by done. exact IH.
Qed.

Lemma subs_of_cell_unsubscribe (c c' : nat) (sid : positive) (w : world) :
  subs_of c (cell_unsubscribe c' sid w)
  = filter (fun e => ~ (c = c' /\ e.1 = sid)) (subs_of c w).
Proof.
  unfold cell_unsubscribe, subs_of.
  destruct (cells w !! c') as [cl'|] eqn:Hc'; simpl.
  - destruct (decide (c = c')) as [->|Hne].
    + rewrite lookup_insert_eq, Hc'. simpl.
      apply list_filter_iff. intros e. tauto.
    + rewrite lookup_insert_ne by done.
      symmetry. apply filter_keep_all, Forall_forall. intros e _ [? _]. done.
  - symmetry. apply filter_keep_all, Forall_forall.
    intros e He [-> _]. rewrite Hc' in He. by apply elem_of_nil in He.
Qed.

(** running release functions that all belong to state cells *)
Lemma run_cleanups_cells (ps : list (nat * positive)) :
  forall w1, exists w2,
    run_cleanups (map (fun p => DCell p.1 p.2) ps) w1 = Ok w2 /\
    hosts w2 = hosts w1 /\ trace w2 = trace w1 /\
    (forall c, subs_of c w2 = filter (fun e => (c, e.1) ∉ ps) (subs_of c w1)).
Proof.
  induction ps as [|[c' sid] ps IH]; intros w1; simpl.
  - exists w1. repeat split. intros c. symmetry.
    apply filter_keep_all, Forall_forall. intros e _. apply not_elem_of_nil.
  - destruct (IH (cell_unsubscribe c' sid w1)) as (w2 & Hrun & Hh & Ht & Hsubs).
    exists w2. split; [exact Hrun|].
    split; [rewrite Hh; unfold cell_unsubscribe; by destruct (cells w1 !! c')|].
    split; [rewrite Ht; unfold cell_unsubscribe; by destruct (cells w1 !! c')|].
    intros c. rewrite Hsubs, subs_of_cell_unsubscribe, list_filter_filter.
    apply list_filter_iff. intros e. rewrite not_elem_of_cons.
    split.
    + intros [H1 H2]. split; [|exact H1]. intros [= Hc He]. by apply H2.
    + intros [H1 H2]. split; [exact H2|]. intros [Hc He]. apply H1. by rewrite Hc, He.
Qed.

(** what construct adds to the state cells: one subscription per release
    function it returns, under ids taken from the supply *)
Lemma construct_each_cells (klass : nat) (isG : bool)
    (props : list (string * input)) :
  forall subs w h,
    hosts w !! klass = Some h ->
    (forall k a, (k, Reactive a) ∈ props ->
       exists c, a = AState c /\ is_Some (cells w !! c)) ->
    exists ps w1,
      construct_each klass isG props subs w
        = Ok (subs ++ map (fun p => DCell p.1 p.2) ps, w1) /\
      (next_id w <= next_id w1)%positive /\
      trace w1 = trace w /\
      Forall (fun p => (next_id w <= p.2)%positive) ps /\
      (forall c, exists add,
         subs_of c w1 = subs_of c w ++ add /\
         Forall (fun e => (c, e.1) ∈ ps) add).
Proof.
  induction props as [|[k v] rest IH]; intros subs w h Hh Hst.
  - exists [], w. simpl. rewrite app_nil_r. repeat split; [lia|constructor|].
    intros c. exists []. by rewrite app_nil_r.
  - assert (Hst' : forall w2, (forall c, is_Some (cells w !! c) -> is_Some (cells w2 !! c)) ->
              forall k0 a, (k0, Reactive a) ∈ rest ->
              exists c, a = AState c /\ is_Some (cells w2 !! c)).
    { intros w2 Hmono k0 a Hin.
      destruct (Hst k0 a) as (c & -> & Hc); [by right|]. eauto. }
    destruct v as [x|a].
    + assert (Hplain :
          exists ps w1,
            (let! w1 := assign klass k x w in construct_each klass isG rest subs w1)
            = Ok (subs ++ map (fun p => DCell p.1 p.2) ps, w1) /\
            (next_id w <= next_id w1)%positive /\
            trace w1 = trace w /\
            Forall (fun p => (next_id w <= p.2)%positive) ps /\
            (forall c, exists add,
               subs_of c w1 = subs_of c w ++ add /\
               Forall (fun e => (c, e.1) ∈ ps) add)).
      { rewrite (assign_spec _ _ _ _ _ Hh). simpl.
        match goal with |- context [construct_each _ _ _ _ ?w1] => set (w1' := w1) end.
        destruct (IH subs w1' _ (lookup_insert_eq _ _ _) (Hst' w1' (fun c H => H)))
          as (ps & w1 & Heq & Hn & Ht & Hps & Hadd).
        exists ps, w1. done. }
      destruct x; try exact Hplain.
      apply (IH subs w h Hh (Hst' w (fun c H => H))).
    + destruct (Hst k a) as (c & -> & [cl Hc]); [by left|].
      simpl. unfold cell_subscribe. rewrite Hc. map_simpl.
      rewrite (assign_spec _ _ _ _ h) by done. simpl.
      match goal with |- context [construct_each _ _ _ _ ?w2] => set (w2' := w2) end.
      assert (Hmono : forall c0, is_Some (cells w !! c0) -> is_Some (cells w2' !! c0)).
      { intros c0 H0. unfold w2'. simpl.
        destruct (decide (c0 = c)) as [->|Hne]; [by map_simpl|].
        by rewrite lookup_insert_ne. }
      destruct (IH (subs ++ [DCell c (next_id w)]) w2' _ (lookup_insert_eq _ _ _)
                  (Hst' w2' Hmono))
        as (ps & w1 & Heq & Hn & Ht & Hps & Hadd).
      exists ((c, next_id w) :: ps), w1.
      split; [by rewrite Heq, <- app_assoc|].
      simpl in Hn. split; [lia|]. split; [exact Ht|]. split.
      * constructor; [simpl; lia|].
        eapply Forall_impl; [exact Hps|]. simpl. intros p Hp. lia.
      * intros c0. destruct (Hadd c0) as (add & Hsub & Hall).
        assert (Hall' : Forall (fun e => (c0, e.1) ∈ (c, next_id w) :: ps) add).
        { eapply Forall_impl; [exact Hall|]. intros e He. by right. }
        destruct (decide (c0 = c)) as [->|Hne].
        -- exists ((next_id w, CbConstruct klass k (AState c) isG) :: add).
           split.
           ++ rewrite Hsub. unfold subs_of, w2'. map_simpl. rewrite Hc.
              by rewrite <- app_assoc.
           ++ constructor; [by left|exact Hall'].
        -- exists add. split; [|exact Hall'].
           rewrite Hsub. unfold subs_of, w2'. simpl.
           by rewrite lookup_insert_ne.
Qed.

(** X19: running the release functions that construct returned removes
    every subscription it made: each state cell has its subscribers back
    as before the call, so later changes of the accessors reach the target
    no more; the fields keep the values assigned. *)
Theorem construct_release (klass : nat) (props : list (string * input))
    (w : world) (h : host) :
  hosts w !! klass = Some h ->
  (forall k a, (k, Reactive a) ∈ props ->
     exists c, a = AState c /\ is_Some (cells w !! c)) ->
  (forall c, Forall (fun e => (e.1 < next_id w)%positive) (subs_of c w)) ->
  exists subs w1 w2,
    construct klass props w = Ok (subs, w1) /\
    run_cleanups subs w1 = Ok w2 /\
    (forall c, subs_of c w2 = subs_of c w) /\
    hosts w2 = hosts w1 /\
    trace w2 = trace w.
Proof.
  intros Hh Hst Hwf.
  destruct (construct_each_cells klass (instanceof_GObject klass w) props [] w h Hh Hst)
    as (ps & w1 & Heq & Hn & Ht & Hps & Hadd).
  destruct (run_cleanups_cells ps w1) as (w2 & Hrun & Hh2 & Ht2 & Hsubs).
  exists (map (fun p => DCell p.1 p.2) ps), w1, w2.
  split; [exact Heq|]. split; [exact Hrun|]. split; [|split; [exact Hh2|congruence]].
  intros c. rewrite Hsubs. destruct (Hadd c) as (add & -> & Hall).
  rewrite filter_app.
  rewrite (filter_keep_all _ (subs_of c w)), (filter_drop_all _ add).
  - by rewrite app_nil_r.
  - eapply Forall_impl; [exact Hall|]. intros e He Hne. by apply Hne.
  - apply Forall_forall. intros e He Hin.
    pose proof (proj1 (Forall_forall _ _) (Hwf c) e He) as H1.
    pose proof (proj1 (Forall_forall _ _) Hps _ Hin) as H2.
    simpl in H1, H2. lia.
Qed.

Lemma construct_release_witness :
  exists subs w1 w2,
    construct 1 example_props world0 = Ok (subs, w1) /\
    run_cleanups subs w1 = Ok w2 /\
    (forall c, subs_of c w2 = subs_of c world0) /\
    hosts w2 = hosts w1 /\
    trace w2 = trace world0.
Proof.
  apply (construct_release 1 example_props world0 hostA eq_refl).
  - intros k a Hin. unfold example_props in Hin.
    apply elem_of_cons in Hin as [[=]|Hin].
    apply elem_of_cons in Hin as [[= -> ->]|Hin].
    { exists 1%nat. split; [reflexivity|]. by eexists. }
    apply elem_of_cons in Hin as [[=]|Hin].
    by apply elem_of_nil in Hin.
  - intros c.
    assert (H : map_Forall (fun _ cl => length (c_subs cl) = 0) (cells world0))
      by (apply (bool_decide_unpack _); vm_compute; exact I).
    unfold subs_of. destruct (cells world0 !! c) as [cl|] eqn:E; [|constructor].
    specialize (H c cl E). simpl in H.
    destruct (c_subs cl); [constructor|discriminate].
Defined.

(** ** Subscribers side by side, and a leak *)

(** X20: two subscribers of the accessor of createSecureBinding are
    independent: each has its own handler and callback, a change of the
    field runs both once, and after the first one unsubscribed the second
    is still notified, alone. *)
Theorem createSecureBinding_subscribers_independent (w : world) (A : nat)
    (hA : host) (prop : string) (d v : value) (k1 k2 fuel : nat) :
  hosts w !! A = Some hA -> h_alive hA = true ->
  listeners (kebab prop) hA = [] ->
  let acc := createSecureBinding (VObj A) prop d in
  exists d1 w1 d2 w2 w3 w4 w5,
    acc_subscribe acc (CbLog k1) w = Ok (d1, w1) /\
    acc_subscribe acc (CbLog k2) w1 = Ok (d2, w2) /\
    host_change (S (S fuel)) A prop v w2 = Ok w3 /\
    trace w3 = trace w ++ [EvCall k1; EvCall k2] /\
    run_dispose d1 w2 = Ok w4 /\
    host_change (S (S fuel)) A prop v w4 = Ok w5 /\
    trace w5 = trace w ++ [EvCall k2].
Proof.
  intros HA HaA Hl acc. destruct hA as [own proto hs alive gobject].
  simpl in HaA. subst alive.
  assert (Hne : Pos.succ (next_id w) <> next_id w) by lia.
  do 7 eexists. split.
  { simpl. rewrite HA. simpl. reflexivity. }
  split.
  { map_simpl. reflexivity. }
  split.
  { unfold host_change, assign. map_simpl. unfold emit. map_simpl.
    rewrite !listeners_snoc, (listeners_own _ _ own), Hl. map_simpl.
    reflexivity. }
  split; [simpl; by rewrite <- app_assoc|].
  split.
  { map_simpl. reflexivity. }
  split.
  { unfold host_change, assign. map_simpl. unfold emit. map_simpl.
    rewrite filter_app, filter_id_snoc.
    rewrite (filter_cons_True _ (Pos.succ (next_id w), _, _)) by (simpl; done).
    rewrite filter_nil, listeners_snoc.
    rewrite (listeners_own _ _ own), (listeners_filter_nil _ _ _ _ _ _ _ Hl).
    map_simpl. reflexivity. }
  reflexivity.
Qed.

Lemma createSecureBinding_subscribers_independent_witness :
  exists d1 w1 d2 w2 w3 w4 w5,
    acc_subscribe (createSecureBinding (VObj 1) "x" VNull) (CbLog 1) world0 = Ok (d1, w1) /\
    acc_subscribe (createSecureBinding (VObj 1) "x" VNull) (CbLog 2) w1 = Ok (d2, w2) /\
    host_change 2 1 "x" (VNum 9) w2 = Ok w3 /\
    trace w3 = [EvCall 1; EvCall 2] /\
    run_dispose d1 w2 = Ok w4 /\
    host_change 2 1 "x" (VNum 9) w4 = Ok w5 /\
    trace w5 = [EvCall 2].
Proof.
  apply (createSecureBinding_subscribers_independent world0 1 hostA "x" VNull
           (VNum 9) 1 2 0);
    reflexivity.
Defined.

(** X21: unsubscribing from a nested binding after the outer accessor has
    moved from host A to host B asks B to drop the handler id: the outer
    listener is released, but the inner listener connected at subscribe
    time stays on A.  Both helpers. *)
Theorem nested_binding_release_after_replace (dv : option value) (w : world)
    (c : nat) (cl : cell) (A B : nat) (hA hB : host) (prop : string)
    (k fuel : nat) :
  cells w !! c = Some cl -> c_value cl = VObj A -> c_subs cl = [] ->
  hosts w !! A = Some hA -> h_alive hA = true ->
  hosts w !! B = Some hB -> h_alive hB = true -> A <> B ->
  exists acc w1 dsp w2 w3 w4,
    nested_binding dv (AState c) prop w = Ok (acc, w1) /\
    acc_subscribe acc (CbLog k) w1 = Ok (dsp, w2) /\
    cell_set (S (S fuel)) c (VObj B) w2 = Ok w3 /\
    run_dispose dsp w3 = Ok w4 /\
    subs_of c w4 = [] /\
    handlers_of A w4
      = h_handlers hA ++ [(Pos.succ (Pos.succ (next_id w)), notify_signal prop,
                           CbNotify (next_id w))].
Proof.
  intros Hc Hv Hs HA HaA HB HaB Hne.
  assert (Hneq : (A =? B)%nat = false) by by apply Nat.eqb_neq.
  destruct hA as [ownA protoA hsA aliveA gobjectA].
  destruct hB as [ownB protoB hsB aliveB gobjectB].
  simpl in HaA, HaB. subst aliveA aliveB.
  destruct dv as [d|].
  all: do 6 eexists.
  all: split; [by apply nested_binding_state|].
  all: split;
    [simpl; eapply (nested_subscribe_host _ _ _ _ _ (Env (c_value cl) None) A _);
     map_simpl; done|].
  all: split;
    [unfold cell_set; map_simpl; rewrite Hv; simpl; rewrite Hneq, Hs;
     map_simpl; unfold env_set_gobj; map_simpl; unfold invoke_notify; map_simpl;
     reflexivity|].
  all: split;
    [simpl; unfold env_gobj; map_simpl; rewrite HB; map_simpl;
     unfold cell_unsubscribe; map_simpl; reflexivity|].
  all: split;
    [unfold subs_of; map_simpl;
     rewrite filter_cons_False by (simpl; auto); reflexivity|].
  all: unfold handlers_of; map_simpl; reflexivity.
Qed.

Lemma nested_binding_release_after_replace_witness :
  exists acc w1 dsp w2 w3 w4,
    nested_binding None (AState 0) "x" world0 = Ok (acc, w1) /\
    acc_subscribe acc (CbLog 7) w1 = Ok (dsp, w2) /\
    cell_set 2 0 (VObj 2) w2 = Ok w3 /\
    run_dispose dsp w3 = Ok w4 /\
    subs_of 0 w4 = [] /\
    handlers_of 1 w4 = [(3%positive, "notify::x", CbNotify 1)].
Proof.
  apply (nested_binding_release_after_replace None world0 0 (Cell (VObj 1) [])
           1 2 hostA hostB "x" 7 0);
    try reflexivity.
  lia.
Defined.
